(** * Genthrust_Alarm: the extraction-and-reconciliation engine of src/app.py

    A shallow embedding of the parsing functions ([find_column_by_name],
    [extract_data_from_text], [extract_data_from_email]) and of the matching
    loop of [process_emails], with the properties of the specification
    stated and settled against them; then of the rest of the cycle
    ([load_inventory], [generate_html_report], the inbox loop and the
    recipient list), with further properties read off the code.

    Conventions of the model.
    - A Python [str] is a [string] of 7-bit ASCII characters.  On these
      [str.upper], [str.strip], [str.split], [str.splitlines], [int] and the
      classes [\s] and [\d] of [re] are the functions below; a character
      above 127 counts as a symbol without case, digit or blank property.
      Text outside ASCII is not modelled: there [str.upper] keeps letters
      that have no upper-case form, and [re.IGNORECASE] lets [[A-Z]] match
      a few letters beyond A to Z.  A property that depends on this says
      so in its statement.
    - [int] refuses a literal of more than 4300 digits, the default of
      [sys.get_int_max_str_digits()].
    - A Python [set] of strings is a [gset string]; [list(set)] is
      [elements], an order that is fixed but not specified.
    - An exception that the program catches is a [None]; the bare [except]
      clauses of the source catch every exception.
    - A pandas cell is a value of [cell]; a table is its column labels and
      its rows.  [pd.read_excel], [pd.read_html] and the text that
      [BeautifulSoup] extracts are parameters of the master parser.
      [row[label]] is modelled for a label that one column carries; under
      a label that several columns carry pandas yields a Series, which is
      not modelled (with two columns named part_number [load_inventory]
      fails, as the code does).
    - The temp directory is a finite map from file names to contents,
      threaded through the attachment loop. *)

From Stdlib Require Import ZArith Lia Ascii String List Bool.
From stdpp Require Import base strings gmap list pretty.

Local Open Scope string_scope.
Local Open Scope list_scope.
Local Open Scope Z_scope.

(** ** Python strings *)

Module PyStr.

Definition code (c : ascii) : N := N_of_ascii c.

Definition in_range (lo hi : N) (c : ascii) : bool :=
  ((lo <=? code c) && (code c <=? hi))%N.

(** [str.isspace] on ASCII: TAB LF VT FF CR, FS GS RS US, and the blank. *)
Definition is_space (c : ascii) : bool :=
  in_range 9 13 c || in_range 28 31 c || (code c =? 32)%N.

Definition is_digit (c : ascii) : bool := in_range 48 57 c.
Definition is_lower (c : ascii) : bool := in_range 97 122 c.
Definition is_upper (c : ascii) : bool := in_range 65 90 c.

Definition upper_char (c : ascii) : ascii :=
  if is_lower c then ascii_of_N (code c - 32) else c.

Definition lower_char (c : ascii) : ascii :=
  if is_upper c then ascii_of_N (code c + 32) else c.

Fixpoint upper (s : string) : string :=
  match s with
  | EmptyString => EmptyString
  | String c s' => String (upper_char c) (upper s')
  end.

Fixpoint lower (s : string) : string :=
  match s with
  | EmptyString => EmptyString
  | String c s' => String (lower_char c) (lower s')
  end.

Definition is_empty (s : string) : bool :=
  match s with EmptyString => true | _ => false end.

Fixpoint lstrip (p : ascii -> bool) (s : string) : string :=
  match s with
  | EmptyString => EmptyString
  | String c s' => if p c then lstrip p s' else s
  end.

Fixpoint rstrip (p : ascii -> bool) (s : string) : string :=
  match s with
  | EmptyString => EmptyString
  | String c s' =>
      let r := rstrip p s' in
      if is_empty r && p c then EmptyString else String c r
  end.

(** [s.strip(chars)], the characters given as a predicate. *)
Definition strip_with (p : ascii -> bool) (s : string) : string :=
  rstrip p (lstrip p s).

(** [s.strip()] *)
Definition strip (s : string) : string := strip_with is_space s.

Fixpoint mem_char (c : ascii) (cs : string) : bool :=
  match cs with
  | EmptyString => false
  | String d cs' => Ascii.eqb c d || mem_char c cs'
  end.

(** [s.strip(cs)] *)
Definition strip_chars (cs : string) (s : string) : string :=
  strip_with (fun c => mem_char c cs) s.

Definition snoc (s : string) (c : ascii) : string := s +:+ String c EmptyString.

(** [s.split()]: the maximal runs of non-space characters. *)
Fixpoint split_go (s cur : string) : list string :=
  match s with
  | EmptyString => if is_empty cur then [] else [cur]
  | String c s' =>
      if is_space c
      then (if is_empty cur then split_go s' EmptyString
            else cur :: split_go s' EmptyString)
      else split_go s' (snoc cur c)
  end.

Definition split (s : string) : list string := split_go s EmptyString.

(** Line boundaries of [str.splitlines] among ASCII: LF VT FF CR FS GS RS,
    with CR LF counted once. *)
Definition is_linebreak (c : ascii) : bool :=
  in_range 10 13 c || in_range 28 30 c.

Fixpoint splitlines_go (s cur : string) : list string :=
  match s with
  | EmptyString => if is_empty cur then [] else [cur]
  | String c s' =>
      if (code c =? 13)%N then
        match s' with
        | String d s'' =>
            if (code d =? 10)%N then cur :: splitlines_go s'' EmptyString
            else cur :: splitlines_go s' EmptyString
        | EmptyString => cur :: splitlines_go s' EmptyString
        end
      else if is_linebreak c then cur :: splitlines_go s' EmptyString
      else splitlines_go s' (snoc cur c)
  end.

Definition splitlines (s : string) : list string := splitlines_go s EmptyString.

(** [s.startswith(p)] *)
Definition startswith (p s : string) : bool := String.prefix p s.

Definition startswith_any (ps : list string) (s : string) : bool :=
  existsb (fun p => startswith p s) ps.

Fixpoint rev_go (s acc : string) : string :=
  match s with
  | EmptyString => acc
  | String c s' => rev_go s' (String c acc)
  end.

Definition rev (s : string) : string := rev_go s EmptyString.

(** [s.endswith(p)] *)
Definition endswith (p s : string) : bool := String.prefix (rev p) (rev s).

Definition endswith_any (ps : list string) (s : string) : bool :=
  existsb (fun p => endswith p s) ps.

Fixpoint any_char (p : ascii -> bool) (s : string) : bool :=
  match s with
  | EmptyString => false
  | String c s' => p c || any_char p s'
  end.

Fixpoint all_char (p : ascii -> bool) (s : string) : bool :=
  match s with
  | EmptyString => true
  | String c s' => p c && all_char p s'
  end.

End PyStr.

Definition LF : string := String (ascii_of_N 10) EmptyString.
Definition DQUOTE : string := String (ascii_of_N 34) EmptyString.

(** ** Regular expressions

    The fragment of Python's [re] that the scanner uses: literals, character
    classes, greedy repetition of a class, sequence, ordered alternation,
    numbered groups and the end anchor.  Matching backtracks as [re] does:
    alternatives are tried left to right, a repetition takes as many
    characters as it can and gives them back one at a time. *)

Module Regex.

Inductive re : Type :=
  | Lit (s : string)
  | Cls (p : ascii -> bool)
  | Rep (p : ascii -> bool) (lo : nat) (hi : option nat)
  | Seq (r1 r2 : re)
  | Alt (r1 r2 : re)
  | Grp (n : nat) (r : re)
  | Eol.

Definition captures := list (nat * string).

(** [m.group(n)]: [None] when the group took no part in the match. *)
Fixpoint group (n : nat) (cs : captures) : option string :=
  match cs with
  | [] => None
  | (k, s) :: cs' => if Nat.eqb k n then Some s else group n cs'
  end.

Fixpoint seqs (rs : list re) : re :=
  match rs with
  | [] => Lit EmptyString
  | [r] => r
  | r :: rs' => Seq r (seqs rs')
  end.

Fixpoint alts (rs : list re) : re :=
  match rs with
  | [] => Cls (fun _ => false)
  | [r] => r
  | r :: rs' => Alt r (alts rs')
  end.

Section Matcher.

(** [re.IGNORECASE] *)
Variable icase : bool.

Definition chr_ok (a c : ascii) : bool :=
  if icase then Ascii.eqb (PyStr.upper_char a) (PyStr.upper_char c)
  else Ascii.eqb a c.

Definition cls_ok (p : ascii -> bool) (c : ascii) : bool :=
  p c || (icase && (p (PyStr.upper_char c) || p (PyStr.lower_char c))).

Fixpoint lit_match (l s : string) : option string :=
  match l with
  | EmptyString => Some s
  | String a l' =>
      match s with
      | String c s' => if chr_ok a c then lit_match l' s' else None
      | EmptyString => None
      end
  end.

Definition hi_open (hi : option nat) : bool :=
  match hi with Some O => false | _ => true end.

Definition hi_pred (hi : option nat) : option nat :=
  match hi with Some n => Some (Nat.pred n) | None => None end.

Fixpoint rep_match {A : Type} (p : ascii -> bool) (lo : nat) (hi : option nat)
    (s : string) (k : string -> option A) : option A :=
  match s with
  | String c s' =>
      if cls_ok p c && hi_open hi then
        match rep_match p (Nat.pred lo) (hi_pred hi) s' k with
        | Some x => Some x
        | None => if Nat.eqb lo 0 then k s else None
        end
      else if Nat.eqb lo 0 then k s else None
  | EmptyString => if Nat.eqb lo 0 then k s else None
  end.

(** The text that a group consumed: what [s] has in front of [rest]. *)
Definition consumed (s rest : string) : string :=
  String.substring 0 (String.length s - String.length rest) s.

Fixpoint run {A : Type} (r : re) (s : string) (cs : captures)
    (k : string -> captures -> option A) : option A :=
  match r with
  | Lit l =>
      match lit_match l s with
      | Some s' => k s' cs
      | None => None
      end
  | Cls p =>
      match s with
      | String c s' => if cls_ok p c then k s' cs else None
      | EmptyString => None
      end
  | Rep p lo hi => rep_match p lo hi s (fun s' => k s' cs)
  | Seq r1 r2 => run r1 s cs (fun s' cs' => run r2 s' cs' k)
  | Alt r1 r2 =>
      match run r1 s cs k with
      | Some x => Some x
      | None => run r2 s cs k
      end
  | Grp n r1 => run r1 s cs (fun s' cs' => k s' ((n, consumed s s') :: cs'))
  | Eol =>
      if PyStr.is_empty s || String.eqb s LF then k s cs else None
  end.

(** [re.match(r, s)]: the rest of the input after the match, and the groups. *)
Definition match_at (r : re) (s : string) : option (string * captures) :=
  run r s [] (fun s' cs => Some (s', cs)).

Definition matches (r : re) (s : string) : bool :=
  match match_at r s with Some _ => true | None => false end.

(** [r.search(s)]: the first position at which [r] matches. *)
Fixpoint search (r : re) (s : string) : option (string * captures) :=
  match match_at r s with
  | Some x => Some x
  | None =>
      match s with
      | String _ s' => search r s'
      | EmptyString => None
      end
  end.

(** [r.findall(s)] for a pattern with one group: group 1 of the successive
    matches, each search resuming where the previous match ended.  [skip]
    counts the characters of the previous match still to pass. *)
Fixpoint findall_go (r : re) (s : string) (skip : nat) : list string :=
  match skip with
  | S n =>
      match s with
      | String _ s' => findall_go r s' n
      | EmptyString => []
      end
  | O =>
      match match_at r s with
      | Some (rest, cs) =>
          let g := default EmptyString (group 1 cs) in
          let n := (String.length s - String.length rest)%nat in
          g :: match s with
               | String _ s' => findall_go r s' (Nat.pred n)
               | EmptyString => []
               end
      | None =>
          match s with
          | String _ s' => findall_go r s' 0
          | EmptyString => []
          end
      end
  end.

Definition findall (r : re) (s : string) : list string := findall_go r s 0.

End Matcher.

Definition digit : re := Cls PyStr.is_digit.
Definition digits (lo : nat) (hi : option nat) : re := Rep PyStr.is_digit lo hi.

End Regex.

(** ** Table cells *)

(** A value found in a pandas cell or used as a column label.  A finite
    float is given by its [repr] and its integer part, the only two things
    the program asks of it. *)
Inductive cell : Type :=
  | CInt (z : Z)
  | CFloat (repr : string) (trunc : Z)
  | CNaN
  | CBool (b : bool)
  | CStr (s : string)
  | CNone
  | COther (repr : string).

(** [str(v)] *)
Definition py_str (v : cell) : string :=
  match v with
  | CInt z => pretty z
  | CFloat repr _ => repr
  | CNaN => "nan"
  | CBool b => if b then "True" else "False"
  | CStr s => s
  | CNone => "None"
  | COther repr => repr
  end.

Definition digit_val (c : ascii) : Z := Z.of_N (PyStr.code c) - 48.

(** The digits of a decimal literal; single underscores may separate them. *)
Fixpoint parse_digits (s : string) (acc : Z) (after_digit : bool) : option Z :=
  match s with
  | EmptyString => if after_digit then Some acc else None
  | String c s' =>
      if PyStr.is_digit c then parse_digits s' (10 * acc + digit_val c) true
      else if Ascii.eqb c "_"%char
           then (if after_digit then parse_digits s' acc false else None)
           else None
  end.

(** The blanks that [int] passes over around an ASCII literal: those of
    C's [isspace], without FS GS RS US. *)
Definition is_int_space (c : ascii) : bool :=
  PyStr.in_range 9 13 c || (PyStr.code c =? 32)%N.

(** [sys.get_int_max_str_digits()]: the number of digits beyond which
    [int] refuses a decimal literal, at the default of the interpreter. *)
Definition MAX_STR_DIGITS : N := 4300.

Fixpoint count_digits (s : string) : N :=
  match s with
  | EmptyString => 0
  | String c s' =>
      ((if PyStr.is_digit c then 1 else 0) + count_digits s')%N
  end.

(** The literal that follows the sign: [None] stands for [ValueError],
    raised for a malformed literal and for one of too many digits. *)
Definition int_literal (r : string) : option Z :=
  if (MAX_STR_DIGITS <? count_digits r)%N then None
  else parse_digits r 0 false.

(** [int(s)] for a string: [None] stands for [ValueError]. *)
Definition int_of_str (s : string) : option Z :=
  match PyStr.strip_with is_int_space s with
  | String "-"%char r => Z.opp <$> int_literal r
  | String "+"%char r => int_literal r
  | t => int_literal t
  end.

(** [int(v)]: [None] stands for the exception that [int] raises. *)
Definition py_int (v : cell) : option Z :=
  match v with
  | CInt z => Some z
  | CFloat _ trunc => Some trunc
  | CBool b => Some (if b then 1 else 0)
  | CStr s => int_of_str s
  | CNaN | CNone | COther _ => None
  end.

(** [pd.isna(v)] *)
Definition isna (v : cell) : bool :=
  match v with
  | CNaN | CNone => true
  | _ => false
  end.

(** ** The text scanner: [extract_data_from_text] *)

(** A requisition item, the dict [{'part': p, 'req_qty': q}]. *)
Record item : Type := Item { part : string; req_qty : Z }.

Definition colon_or_space (c : ascii) : bool :=
  Ascii.eqb c ":"%char || PyStr.is_space c.

(** [(?:QTY|QUANTITY|COUNT)[:\s]+(\d+)|(\d+)\s*(?:EA|EACH|PC|PCS)] *)
Definition qty_regex : Regex.re :=
  Regex.Alt
    (Regex.seqs
       [Regex.alts [Regex.Lit "QTY"; Regex.Lit "QUANTITY"; Regex.Lit "COUNT"];
        Regex.Rep colon_or_space 1 None;
        Regex.Grp 1 (Regex.digits 1 None)])
    (Regex.seqs
       [Regex.Grp 2 (Regex.digits 1 None);
        Regex.Rep PyStr.is_space 0 None;
        Regex.alts [Regex.Lit "EA"; Regex.Lit "EACH"; Regex.Lit "PC";
                    Regex.Lit "PCS"]]).

(** The class [[A-Z0-9\-\.]] *)
Definition part_char (c : ascii) : bool :=
  PyStr.is_upper c || PyStr.is_digit c
  || Ascii.eqb c "-"%char || Ascii.eqb c "."%char.

(** [(?:P/N|PN|PART|PART NO|PART NUMBER|ALT|ALTERNATE)[:\s]+([A-Z0-9\-\.]+)] *)
Definition explicit_part_regex : Regex.re :=
  Regex.seqs
    [Regex.alts [Regex.Lit "P/N"; Regex.Lit "PN"; Regex.Lit "PART";
                 Regex.Lit "PART NO"; Regex.Lit "PART NUMBER";
                 Regex.Lit "ALT"; Regex.Lit "ALTERNATE"];
     Regex.Rep colon_or_space 1 None;
     Regex.Grp 1 (Regex.Rep part_char 1 None)].

Definition ignore_tokens : gset string :=
  list_to_set
    ["QTY"; "REQ"; "UM"; "EA"; "EACH"; "DESC"; "DESCRIPTION"; "REV"; "DATE";
     "SIGNED"; "DELIVERED"; "BY"; "AND"; "OR"; "TO"; "FROM"; "SUBJECT"; "SENT";
     "CC"; "HI"; "HELLO"; "REGARDS"; "THANKS"; "BOLT"; "SCREW"; "WASHER"; "NUT";
     "PIN"; "RIVET"; "COLLAR"; "BUSHING"; "SEAL"; "SUPPORT"; "BEARING"; "CLAMP";
     "SN"; "S/N"; "SERIAL"; "AWB"; "OUTBOUND"; "SHIPPING"; "COMPANY"; "ACCOUNT";
     "USED"; "NOTES"; "TRACKING"; "PHONE"; "FAX"; "NEEDED"; "ASSEMBLY"; "ASSY"].

Definition header_prefixes : list string :=
  ["AIRCRAFT:"; "REASON:"; "SUBJECT:"; "FROM:"; "TO:"; "SENT:"; "ADDRESS:";
   "SHIP TO:"].

Definition slash_or_dash (c : ascii) : bool :=
  Ascii.eqb c "/"%char || Ascii.eqb c "-"%char.

(** [^\d{3}-\d{3}-\d{4}$] *)
Definition phone_regex : Regex.re :=
  Regex.seqs
    [Regex.digits 3 (Some 3%nat); Regex.Lit "-"; Regex.digits 3 (Some 3%nat);
     Regex.Lit "-"; Regex.digits 4 (Some 4%nat); Regex.Eol].

(** [^\d{1,2}[/-]\d{1,2}[/-]\d{2,4}$] *)
Definition date_regex : Regex.re :=
  Regex.seqs
    [Regex.digits 1 (Some 2%nat); Regex.Cls slash_or_dash;
     Regex.digits 1 (Some 2%nat); Regex.Cls slash_or_dash;
     Regex.digits 2 (Some 4%nat); Regex.Eol].

(** [^N\d] *)
Definition tail_regex : Regex.re :=
  Regex.Seq (Regex.Lit "N") Regex.digit.

(** [^\d+(ST|ND|RD|TH)$] *)
Definition ordinal_regex : Regex.re :=
  Regex.seqs
    [Regex.digits 1 None;
     Regex.Grp 1 (Regex.alts [Regex.Lit "ST"; Regex.Lit "ND"; Regex.Lit "RD";
                              Regex.Lit "TH"]);
     Regex.Eol].

Definition is_phone (t : string) : bool := Regex.matches false phone_regex t.
Definition is_date (t : string) : bool := Regex.matches false date_regex t.
Definition is_tail (t : string) : bool := Regex.matches false tail_regex t.
Definition is_ordinal (t : string) : bool := Regex.matches false ordinal_regex t.

(** The four shapes that the word scan refuses. *)
Definition rejected_shape (t : string) : bool :=
  is_phone t || is_date t || is_tail t || is_ordinal t.

(** The quantity of a quantity line: [qty_regex.search], then
    [int(group(1) or group(2))] with 1 for any failure of [int]. *)
Definition qty_of_line (clean_line : string) : option Z :=
  match Regex.search true qty_regex clean_line with
  | None => None
  | Some (_, cs) =>
      let qty_str :=
        match Regex.group 1 cs with
        | Some g => if PyStr.is_empty g then Regex.group 2 cs else Some g
        | None => Regex.group 2 cs
        end in
      Some (default 1 (qty_str ≫= int_of_str))
  end.

(** A. the labelled parts of a line *)
Definition explicit_parts (clean_line : string) : list string :=
  List.filter (fun clean_p => (2 <? String.length clean_p)%nat)
    (List.map (fun p => PyStr.strip_chars ".,:; " (PyStr.upper p))
       (Regex.findall true explicit_part_regex clean_line)).

Definition token_strip_chars : string := ".,:;()[]" +:+ DQUOTE.

Definition clean_token (token : string) : string :=
  PyStr.strip_chars token_strip_chars (PyStr.upper token).

(** The chain of [continue]s of the word scan, and the ignore set. *)
Definition keep_token (t : string) : bool :=
  negb (String.length t <? 3)%nat
  && PyStr.any_char PyStr.is_digit t
  && negb (is_phone t)
  && negb (is_date t)
  && negb (is_tail t)
  && negb (is_ordinal t)
  && negb (bool_decide (t ∈ ignore_tokens)).

(** B. the parts found by scanning the words of a line *)
Definition implicit_parts (clean_line : string) : list string :=
  List.filter keep_token (List.map clean_token (PyStr.split clean_line)).

Definition line_parts (clean_line : string) : gset string :=
  list_to_set (explicit_parts clean_line)
  ∪ list_to_set (implicit_parts clean_line).

(** What one line is to the loop. *)
Inductive line_kind : Type :=
  | Skipped
  | QtyLine (found_qty : Z)
  | PartLine (parts : list string).

Definition classify (line : string) : line_kind :=
  let clean_line := PyStr.strip line in
  if PyStr.is_empty clean_line then Skipped
  else if PyStr.startswith_any header_prefixes (PyStr.upper clean_line)
  then Skipped
  else match qty_of_line clean_line with
       | Some found_qty => QtyLine found_qty
       | None => PartLine (elements (line_parts clean_line))
       end.

(** The state of the loop: [results] and [current_block_parts]. *)
Definition scan_state : Type := list item * list string.

Definition with_qty (q : Z) (parts : list string) : list item :=
  List.map (fun p => Item p q) parts.

Definition process_line (st : scan_state) (line : string) : scan_state :=
  let '(results, current_block_parts) := st in
  match classify line with
  | Skipped => st
  | QtyLine found_qty =>
      (results ++ with_qty found_qty current_block_parts, [])
  | PartLine parts => (results, current_block_parts ++ parts)
  end.

Definition scan_lines (st : scan_state) (lines : list string) : scan_state :=
  fold_left process_line lines st.

(** The clean-up after the loop: the parts left get quantity 1. *)
Definition flush (st : scan_state) : list item :=
  fst st ++ with_qty 1 (snd st).

Definition extract_lines (lines : list string) : list item :=
  flush (scan_lines ([], []) lines).

Definition extract_data_from_text (text : string) : list item :=
  extract_lines (PyStr.splitlines text).

(** ** Tables: [find_column_by_name] and the row loop *)

(** A pandas DataFrame: the column labels and the rows, each row holding
    one cell per column.  Labels are cells, since a promoted header makes
    the cells of a row the labels. *)
Record dataframe : Type := DataFrame {
  columns : list cell;
  rows : list (list cell)
}.

Global Instance cell_eq_dec : EqDecision cell.
Proof. solve_decision. Defined.

(** [str(c).upper().strip()] *)
Definition normalize_label (c : cell) : string :=
  PyStr.strip (PyStr.upper (py_str c)).

(** The dict [{str(c).upper().strip(): c for c in df.columns}]: a later
    column replaces an earlier one with the same key. *)
Definition column_map (cs : list cell) : gmap string cell :=
  fold_left (fun m c => <[normalize_label c := c]> m) cs ∅.

Fixpoint first_keyword (cols : gmap string cell) (keywords : list string)
    : option cell :=
  match keywords with
  | [] => None
  | kw :: rest =>
      match cols !! kw with
      | Some c => Some c
      | None => first_keyword cols rest
      end
  end.

Definition find_column_by_name (df : dataframe) (keywords : list string)
    : option cell :=
  first_keyword (column_map (columns df)) keywords.

(** [row[label]]: the cell under the column that carries the label, the
    first one if several do (pandas then yields a Series, see the
    conventions); pandas pads a short row with NaN. *)
Fixpoint row_get (cs : list cell) (row : list cell) (label : cell) : cell :=
  match cs, row with
  | c :: cs', v :: row' =>
      if decide (c = label) then v else row_get cs' row' label
  | _, _ => CNaN
  end.

(** [int(row[qty_col]) if qty_col else 1], with 1 when [int] raises. *)
Definition row_qty (df : dataframe) (qty_col : option cell) (row : list cell)
    : Z :=
  match qty_col with
  | Some qc => default 1 (py_int (row_get (columns df) row qc))
  | None => 1
  end.

(** The body of [for _, row in df.iterrows()]. *)
Definition row_items (df : dataframe) (part_col : cell) (qty_col : option cell)
    (row : list cell) : list item :=
  let p := PyStr.upper (PyStr.strip (py_str (row_get (columns df) row part_col))) in
  if negb (PyStr.is_empty p) && negb (String.eqb p "NAN")
  then [Item p (row_qty df qty_col row)]
  else [].

Definition table_items (df : dataframe) (part_col : cell)
    (qty_col : option cell) : list item :=
  flat_map (row_items df part_col qty_col) (rows df).

Definition EXCEL_PART_KEYWORDS : list string :=
  ["P/N"; "PN"; "PART"; "PART NUMBER"; "ITEM"].
Definition EXCEL_QTY_KEYWORDS : list string :=
  ["QTY"; "QUANTITY"; "REQ"; "QTY REQ"].
Definition HTML_PART_KEYWORDS : list string :=
  ["P/N"; "PN"; "PART"; "PART NUMBER"].
Definition HTML_QTY_KEYWORDS : list string :=
  ["QTY"; "QUANTITY"].

(** What the attachment branch does with a sheet once it is read:
    [None] when no part-number column resolves. *)
Definition excel_extract (df : dataframe) : option (list item) :=
  let part_col := find_column_by_name df EXCEL_PART_KEYWORDS in
  let qty_col := find_column_by_name df EXCEL_QTY_KEYWORDS in
  match part_col with
  | Some pc => Some (table_items df pc qty_col)
  | None => None
  end.

(** [df.empty] *)
Definition df_empty (df : dataframe) : bool :=
  match columns df, rows df with
  | _ :: _, _ :: _ => false
  | _, _ => true
  end.

(** [df_promoted]: the first row becomes the header and is dropped. *)
Definition promote_header (df : dataframe) : dataframe :=
  match rows df with
  | first :: rest => DataFrame first rest
  | [] => df
  end.

(** The body of [for df in dfs] of the HTML branch: [None] when the loop
    goes on to the next table. *)
Definition html_extract (df : dataframe) : option (list item) :=
  let part_col := find_column_by_name df HTML_PART_KEYWORDS in
  let qty_col := find_column_by_name df HTML_QTY_KEYWORDS in
  let '(df, part_col, qty_col) :=
    match part_col with
    | None =>
        if negb (df_empty df) then
          let df_promoted := promote_header df in
          (df_promoted,
           find_column_by_name df_promoted HTML_PART_KEYWORDS,
           find_column_by_name df_promoted HTML_QTY_KEYWORDS)
        else (df, part_col, qty_col)
    | Some _ => (df, part_col, qty_col)
    end in
  match part_col with
  | Some pc => Some (table_items df pc qty_col)
  | None => None
  end.

Fixpoint html_tables (dfs : list dataframe) : option (list item) :=
  match dfs with
  | [] => None
  | df :: rest =>
      match html_extract df with
      | Some extracted => Some extracted
      | None => html_tables rest
      end
  end.

(** ** The master parser: [extract_data_from_email] *)

(** An attachment of the message: its name, whether [attachment.save]
    writes its file, and its bytes. *)
Record attachment : Type := Attachment {
  att_name : string;
  att_saves : bool;
  att_content : string
}.

Record message : Type := Message {
  subject : string;
  body : string;
  has_attachments : bool;
  attachments : list attachment
}.

(** The files of TEMP_DIR, by name. *)
Abbreviation temp_dir := (gmap string string).

(** [attachment.save(TEMP_DIR)]: the temp directory afterwards. *)
Definition saved (fs : temp_dir) (a : attachment) : temp_dir :=
  if att_saves a then <[att_name a := att_content a]> fs else fs.

Section Extraction.

(** The parsers of pandas and BeautifulSoup; [None] is a raised exception. *)
Variable read_excel : string -> option dataframe.
Variable read_html : string -> option (list dataframe).
Variable get_text : string -> option string.

Definition is_spreadsheet_name (name : string) : bool :=
  PyStr.endswith_any [".xlsx"; ".xls"] (PyStr.lower name).

(** One turn of [for attachment in message.attachments] for a spreadsheet
    name: the [try] block.  [None] is either the handled exception or
    falling out of [if part_col]; both go on to the next attachment. *)
Definition try_attachment (fs : temp_dir) (a : attachment)
    : option (list item * string) * temp_dir :=
  let save_path := att_name a in
  let fs := saved fs a in
  match fs !! save_path ≫= read_excel with
  | Some df =>
      match excel_extract df with
      | Some extracted =>
          (Some (extracted, "Excel (" +:+ att_name a +:+ ")"),
           delete save_path fs)
      | None => (None, fs)
      end
  | None => (None, fs)
  end.

Fixpoint attachment_loop (fs : temp_dir) (atts : list attachment)
    : option (list item * string) * temp_dir :=
  match atts with
  | [] => (None, fs)
  | a :: rest =>
      if is_spreadsheet_name (att_name a) then
        match try_attachment fs a with
        | (Some r, fs') => (Some r, fs')
        | (None, fs') => attachment_loop fs' rest
        end
      else attachment_loop fs rest
  end.

Definition attachment_strategy (fs : temp_dir) (msg : message)
    : option (list item * string) * temp_dir :=
  if has_attachments msg then attachment_loop fs (attachments msg)
  else (None, fs).

Definition html_strategy (msg : message) : option (list item * string) :=
  if PyStr.is_empty (body msg) then None
  else match read_html (body msg) ≫= html_tables with
       | Some extracted => Some (extracted, "HTML Table")
       | None => None
       end.

Definition text_strategy (msg : message) : list item * string :=
  let body_text := default EmptyString (get_text (body msg)) in
  let full_text := subject msg +:+ LF +:+ body_text in
  (extract_data_from_text full_text, "Text Scanner").

Definition extract_data_from_email (fs : temp_dir) (msg : message)
    : (list item * string) * temp_dir :=
  match attachment_strategy fs msg with
  | (Some r, fs') => (r, fs')
  | (None, fs') =>
      match html_strategy msg with
      | Some r => (r, fs')
      | None => (text_strategy msg, fs')
      end
  end.

End Extraction.

(** ** The matcher: the item loop of [process_emails] *)

(** A row of the inventory table.  [quantity] and [condition] are [None]
    when the table has no such column. *)
Record inventory_record : Type := InventoryRecord {
  part_number : string;
  quantity : option cell;
  condition : option cell
}.

(** A row of the report. *)
Record result : Type := Result {
  r_part : string;
  r_status : string;
  r_condition : cell;
  r_req_qty : Z;
  r_stock_qty : Z;
  r_remaining : Z
}.

Definition NA : cell := CStr "N/A".

(** [df[df['part_number'] == part]] *)
Definition exact_matches (df : list inventory_record) (p : string)
    : list inventory_record :=
  List.filter (fun r => String.eqb (part_number r) p) df.

(** [df[df['part_number'].str.startswith(part, na=False)]] *)
Definition prefix_matches (df : list inventory_record) (p : string)
    : list inventory_record :=
  List.filter (fun r => PyStr.startswith p (part_number r)) df.

(** [try: stock_qty = int(row['quantity'])  except: stock_qty = 0] *)
Definition stock_of (row : inventory_record) : Z :=
  default 0 (quantity row ≫= py_int).

(** [row.get('condition', 'N/A')], then N/A for a missing value. *)
Definition condition_of (row : inventory_record) : cell :=
  let c := default NA (condition row) in
  if isna c then NA else c.

Definition MISSING : string := "MISSING (Unknown Part)".
Definition OUT_OF_STOCK : string := "OUT OF STOCK".
Definition IN_STOCK : string := "IN STOCK".
Definition LOW_STOCK (have : Z) : string :=
  "LOW STOCK (Have " +:+ pretty have +:+ ")".

Definition matched_label (p actual : string) : string :=
  p +:+ " (Matched: " +:+ actual +:+ ")".

(** The status logic for a found row. *)
Definition classify_stock (p : string) (req : Z) (row : inventory_record)
    : result :=
  let stock_qty := stock_of row in
  let cond := condition_of row in
  if stock_qty =? 0 then Result p OUT_OF_STOCK cond req stock_qty 0
  else if stock_qty >=? req
       then Result p IN_STOCK cond req stock_qty (stock_qty - req)
       else Result p (LOW_STOCK stock_qty) cond req stock_qty 0.

(** The body of [for item in items]. *)
Definition reconcile_item (df : list inventory_record) (it : item) : result :=
  let p := part it in
  let req := req_qty it in
  let m := exact_matches df p in
  let '(m, p) :=
    match m with
    | [] =>
        let m := prefix_matches df p in
        (m, match m with
            | first :: _ => matched_label p (part_number first)
            | [] => p
            end)
    | _ :: _ => (m, p)
    end in
  match m with
  | [] => Result p MISSING NA req 0 0
  | row :: _ => classify_stock p req row
  end.

Definition reconcile (items : list item) (df : list inventory_record)
    : list result :=
  List.map (reconcile_item df) items.

(** ** The report: [generate_html_report] *)

(** [sub in s] for strings. *)
Fixpoint str_contains (sub s : string) : bool :=
  if String.prefix sub s then true
  else match s with
       | EmptyString => false
       | String _ s' => str_contains sub s'
       end.

Definition bg_color (status : string) : string :=
  if str_contains "MISSING" status || str_contains "OUT OF STOCK" status
     || str_contains "LOW STOCK" status
  then "#ffe6e6" else "#ffffff".

Definition font_weight (status : string) : string :=
  if String.eqb (bg_color status) "#ffe6e6" then "bold" else "normal".

(** The first f-string of the function, with the reading of the clock as
    [timestamp]. *)
Definition report_head (original_subject method timestamp : string) : string :=
  String.concat LF
    [EmptyString;
     "    <div style=" +:+ DQUOTE +:+ "font-family: Arial, sans-serif; color: #333;" +:+ DQUOTE +:+ ">";
     "        <h3>Inventory Check Report</h3>";
     "        <p><strong>Triggered by:</strong> " +:+ original_subject +:+ "<br>";
     "           <strong>Read Method:</strong> " +:+ method +:+ "<br>";
     "           <strong>Time:</strong> " +:+ timestamp +:+ "</p>";
     "        ";
     "        <table style=" +:+ DQUOTE +:+ "border-collapse: collapse; width: 100%; max-width: 900px;" +:+ DQUOTE +:+ ">";
     "            <thead>";
     "                <tr style=" +:+ DQUOTE +:+ "background-color: #0078D4; color: white; text-align: left;" +:+ DQUOTE +:+ ">";
     "                    <th style=" +:+ DQUOTE +:+ "padding: 8px; border: 1px solid #ddd;" +:+ DQUOTE +:+ ">Part Number</th>";
     "                    <th style=" +:+ DQUOTE +:+ "padding: 8px; border: 1px solid #ddd;" +:+ DQUOTE +:+ ">Status</th>";
     "                    <th style=" +:+ DQUOTE +:+ "padding: 8px; border: 1px solid #ddd;" +:+ DQUOTE +:+ ">Condition</th>";
     "                    <th style=" +:+ DQUOTE +:+ "padding: 8px; border: 1px solid #ddd;" +:+ DQUOTE +:+ ">Req Qty</th>";
     "                    <th style=" +:+ DQUOTE +:+ "padding: 8px; border: 1px solid #ddd;" +:+ DQUOTE +:+ ">In Stock</th>";
     "                    <th style=" +:+ DQUOTE +:+ "padding: 8px; border: 1px solid #ddd;" +:+ DQUOTE +:+ ">Remaining</th>";
     "                </tr>";
     "            </thead>";
     "            <tbody>";
     "    "].

(** The f-string of the loop. *)
Definition report_row (row : result) : string :=
  String.concat LF
    [EmptyString;
     "            <tr style=" +:+ DQUOTE +:+ "background-color: " +:+ bg_color (r_status row) +:+ ";" +:+ DQUOTE +:+ ">";
     "                <td style=" +:+ DQUOTE +:+ "padding: 8px; border: 1px solid #ddd;" +:+ DQUOTE +:+ ">" +:+ r_part row +:+ "</td>";
     "                <td style=" +:+ DQUOTE +:+ "padding: 8px; border: 1px solid #ddd; font-weight: " +:+ font_weight (r_status row) +:+ DQUOTE +:+ ">" +:+ r_status row +:+ "</td>";
     "                <td style=" +:+ DQUOTE +:+ "padding: 8px; border: 1px solid #ddd;" +:+ DQUOTE +:+ ">" +:+ py_str (r_condition row) +:+ "</td>";
     "                <td style=" +:+ DQUOTE +:+ "padding: 8px; border: 1px solid #ddd;" +:+ DQUOTE +:+ ">" +:+ pretty (r_req_qty row) +:+ "</td>";
     "                <td style=" +:+ DQUOTE +:+ "padding: 8px; border: 1px solid #ddd;" +:+ DQUOTE +:+ ">" +:+ pretty (r_stock_qty row) +:+ "</td>";
     "                <td style=" +:+ DQUOTE +:+ "padding: 8px; border: 1px solid #ddd;" +:+ DQUOTE +:+ ">" +:+ pretty (r_remaining row) +:+ "</td>";
     "            </tr>";
     "        "].

Definition generate_html_report (results : list result)
    (original_subject method timestamp : string) : string :=
  let html := report_head original_subject method timestamp in
  let html := fold_left (fun html row => html +:+ report_row row) results html in
  html +:+ "</tbody></table></div>".

(** ** The inbox loop of [process_emails] *)

(** A message of the inbox with its read flag. *)
Record inbox_message : Type := InboxMessage {
  im_message : message;
  is_read : bool
}.

(** The message that [account.new_message] builds and [m.send()] sends. *)
Record report_mail : Type := ReportMail {
  mail_to : list string;
  mail_subject : string;
  mail_body : string
}.

(** What one turn of the loop does to the outside: whether it calls
    [message.mark_as_read()], and the report it sends. *)
Record handled : Type := Handled {
  marks_read : bool;
  sent : option report_mail
}.

Section Processing.

Variable read_excel : string -> option dataframe.
Variable read_html : string -> option (list dataframe).
Variable get_text : string -> option string.

(** The list that the configuration leaves in TARGET_RECIPIENTS. *)
Variable TARGET_RECIPIENTS : list string.

(** The reading of the clock when the report for a message is rendered. *)
Variable clock : message -> string.

(** The body of [for message in messages], for the inventory [df] that
    [load_inventory] returned ([None]: no inventory). *)
Definition process_message (df : option (list inventory_record))
    (fs : temp_dir) (im : inbox_message) : handled * temp_dir :=
  let message := im_message im in
  if is_read im then (Handled false None, fs)
  else if str_contains "Inventory Alert" (subject message)
  then (Handled true None, fs)
  else if negb (str_contains "C CHECK" (subject message))
  then (Handled false None, fs)
  else
    let '((items, method), fs) :=
      extract_data_from_email read_excel read_html get_text fs message in
    match items with
    | [] => (Handled true None, fs)
    | _ :: _ =>
        match df with
        | None => (Handled false None, fs)
        | Some df =>
            let results := reconcile items df in
            let report :=
              match TARGET_RECIPIENTS with
              | [] => None
              | _ :: _ =>
                  Some (ReportMail TARGET_RECIPIENTS
                          ("Inventory Alert: " +:+ subject message)
                          (generate_html_report results (subject message)
                             method (clock message)))
              end in
            (Handled true report, fs)
        end
    end.

(** The loop over the messages that [inbox.get_messages] returned. *)
Fixpoint process_inbox (df : option (list inventory_record)) (fs : temp_dir)
    (messages : list inbox_message) : list handled * temp_dir :=
  match messages with
  | [] => ([], fs)
  | im :: rest =>
      let '(h, fs) := process_message df fs im in
      let '(hs, fs) := process_inbox df fs rest in
      (h :: hs, fs)
  end.

End Processing.

(** The items that the master parser reads in a message. *)
Definition items_of (read_excel : string -> option dataframe)
    (read_html : string -> option (list dataframe))
    (get_text : string -> option string) (fs : temp_dir) (msg : message)
    : list item :=
  fst (fst (extract_data_from_email read_excel read_html get_text fs msg)).

(** ** The configuration: TARGET_RECIPIENTS *)

(** [s.split(sep)] for a separator of one character. *)
Fixpoint split_on_go (sep : ascii) (s cur : string) : list string :=
  match s with
  | EmptyString => [cur]
  | String c s' =>
      if Ascii.eqb c sep then cur :: split_on_go sep s' EmptyString
      else split_on_go sep s' (PyStr.snoc cur c)
  end.

Definition split_on (sep : ascii) (s : string) : list string :=
  split_on_go sep s EmptyString.

(** The list built from the variable TARGET_EMAILS; the empty string
    stands for an unset or empty variable. *)
Definition target_recipients (recipients_raw : string) : list string :=
  if PyStr.is_empty recipients_raw then []
  else List.map PyStr.strip (split_on ","%char recipients_raw).

(** The number of occurrences of a character. *)
Fixpoint count_char (c : ascii) (s : string) : nat :=
  match s with
  | EmptyString => 0
  | String d s' => (if Ascii.eqb d c then 1 else 0) + count_char c s'
  end.

(** ** The inventory: [load_inventory] *)

(** [os.path.basename] *)
Fixpoint basename_go (path cur : string) : string :=
  match path with
  | EmptyString => cur
  | String c path' =>
      if Ascii.eqb c "/"%char then basename_go path' EmptyString
      else basename_go path' (PyStr.snoc cur c)
  end.

Definition basename (path : string) : string := basename_go path EmptyString.

(** [x.replace(" ", "")] *)
Fixpoint remove_spaces (s : string) : string :=
  match s with
  | EmptyString => EmptyString
  | String c s' =>
      if Ascii.eqb c " "%char then remove_spaces s'
      else String c (remove_spaces s')
  end.

(** The test of the header scan on one row:
    [any('PARTNUMBER' in x.replace(" ", "") for x in vals)]. *)
Definition is_header_row (row : list cell) : bool :=
  existsb (fun v => str_contains "PARTNUMBER"
                      (remove_spaces (PyStr.upper (py_str v)))) row.

Fixpoint first_index {A : Type} (f : A -> bool) (l : list A) : option nat :=
  match l with
  | [] => None
  | x :: l' => if f x then Some 0%nat else S <$> first_index f l'
  end.

(** The scan [for i in range(min(10, len(df)))], stopped at the first row
    that passes the test. *)
Definition header_idx (df : dataframe) : option nat :=
  first_index is_header_row (take 10 (rows df)).

(** [df.rename(columns={...})] *)
Definition rename_label (c : cell) : cell :=
  if decide (c = CStr "PartNumber") then CStr "part_number"
  else if decide (c = CStr "Qty") then CStr "quantity"
  else if decide (c = CStr "Condition") then CStr "condition"
  else c.

Definition rename_columns (df : dataframe) : dataframe :=
  DataFrame (List.map rename_label (columns df)) (rows df).

(** [row[label] = v]; a short row is padded with NaN, as in [row_get]. *)
Fixpoint row_set (cs : list cell) (row : list cell) (label v : cell)
    : list cell :=
  match cs with
  | [] => row
  | c :: cs' =>
      let x := match row with [] => CNaN | x :: _ => x end in
      let row' := match row with [] => [] | _ :: r => r end in
      if decide (c = label) then v :: row'
      else x :: row_set cs' row' label v
  end.

(** [str(v).strip().upper()], the normal form of a part number. *)
Definition normalize_part (v : cell) : cell :=
  CStr (PyStr.upper (PyStr.strip (py_str v))).

Definition PART_NUMBER : cell := CStr "part_number".

(** [df['part_number'] = df['part_number'].astype(str).str.strip().str.upper()] *)
Definition normalize_part_column (df : dataframe) : dataframe :=
  DataFrame (columns df)
    (List.map (fun row =>
                 row_set (columns df) row PART_NUMBER
                   (normalize_part (row_get (columns df) row PART_NUMBER)))
       (rows df)).

(** The end of the function, from the renaming on.  With the label
    part_number on two columns, [df['part_number']] is a table, which has
    no [.str]: the exception is handled and nothing is returned. *)
Definition finish_inventory (df : dataframe) : option dataframe :=
  let df := rename_columns df in
  match count_occ cell_eq_dec (columns df) PART_NUMBER with
  | O => None
  | S O => Some (normalize_part_column df)
  | S (S _) => None
  end.

Definition is_excel_name (name : string) : bool :=
  PyStr.endswith ".xlsx" name || PyStr.endswith ".xls" name.

Section Loading.

(** The configured path of the synced file; empty when unset. *)
Variable SP_FILE_PATH : string.

(** [os.path.exists] on a name within the data directory. *)
Variable exists_in_data : string -> bool.

(** [pd.read_excel(file, sheet_name=..., header=...)]; the sheet [None]
    is the default sheet, and a result [None] is a raised exception. *)
Variable read_excel_sheet : string -> option string -> nat -> option dataframe.

(** [pd.read_csv(file)] *)
Variable read_csv : string -> option dataframe.

(** The choice of [target_file]: the synced file, then inventory.csv. *)
Definition target_file : option string :=
  let target_file :=
    if negb (PyStr.is_empty SP_FILE_PATH) then
      let sp_name := basename SP_FILE_PATH in
      if exists_in_data sp_name then Some sp_name else None
    else None in
  match target_file with
  | Some t => Some t
  | None =>
      if exists_in_data "inventory.csv" then Some "inventory.csv" else None
  end.

(** The first reading of the file. *)
Definition first_read (target : string) : option dataframe :=
  if is_excel_name target then
    match read_excel_sheet target (Some "InventoryIndex") 0 with
    | Some df => Some df
    | None => read_excel_sheet target None 0
    end
  else read_csv target.

(** The table that goes into the renaming: the first reading, or the
    sheet read again below the header row that the scan found. *)
Definition read_table (target : string) : option dataframe :=
  df ← first_read target;
  if df_empty df then None
  else
    match header_idx df with
    | Some i =>
        if PyStr.endswith ".xlsx" target
        then read_excel_sheet target (Some "InventoryIndex") (i + 1)
        else Some df
    | None => Some df
    end.

Definition load_inventory : option dataframe :=
  target ← target_file;
  df ← read_table target;
  finish_inventory df.

End Loading.

(** The rows of the loaded table as the matcher reads them:
    [row['part_number']], [row['quantity']] with its KeyError, and
    [row.get('condition', 'N/A')].  A label is looked up in its first
    column. *)
Definition record_of (cs : list cell) (row : list cell) : inventory_record :=
  InventoryRecord
    (py_str (row_get cs row PART_NUMBER))
    (if decide (CStr "quantity" ∈ cs)
     then Some (row_get cs row (CStr "quantity")) else None)
    (if decide (CStr "condition" ∈ cs)
     then Some (row_get cs row (CStr "condition")) else None).

Definition inventory_of (df : dataframe) : list inventory_record :=
  List.map (record_of (columns df)) (rows df).

(** ** One cycle: [process_emails] *)

Section Cycle.

Variable SP_FILE_PATH : string.
Variable exists_in_data : string -> bool.
Variable read_excel_sheet : string -> option string -> nat -> option dataframe.
Variable read_csv : string -> option dataframe.
Variable read_excel : string -> option dataframe.
Variable read_html : string -> option (list dataframe).
Variable get_text : string -> option string.
Variable TARGET_RECIPIENTS : list string.
Variable clock : message -> string.

(** [authenticated] is false when [account.authenticate()] fails or
    raises; [inbox] is [None] when [inbox.get_messages] raises.  The files
    are those that the download from SharePoint has left. *)
Definition process_emails (authenticated : bool)
    (inbox : option (list inbox_message)) (fs : temp_dir)
    : list handled * temp_dir :=
  if authenticated then
    let df := load_inventory SP_FILE_PATH exists_in_data read_excel_sheet
                read_csv in
    match inbox with
    | None => ([], fs)
    | Some messages =>
        process_inbox read_excel read_html get_text TARGET_RECIPIENTS clock
          (inventory_of <$> df) fs messages
    end
  else ([], fs).

End Cycle.

(** [found df p row]: [row] is the row that the lookup of part [p] settles
    on, the first exact match or, without one, the first prefix match. *)
Definition found (df : list inventory_record) (p : string)
    (row : inventory_record) : Prop :=
  match exact_matches df p with
  | r :: _ => r = row
  | [] => head (prefix_matches df p) = Some row
  end.

Definition not_found (df : list inventory_record) (p : string) : Prop :=
  exact_matches df p = [] /\ prefix_matches df p = [].

(** The parts that a block of lines leaves pending, in order. *)
Definition line_pending (line : string) : list string :=
  match classify line with
  | PartLine parts => parts
  | _ => []
  end.

Definition pending_of (lines : list string) : list string :=
  flat_map line_pending lines.

Definition is_qty_line (line : string) : bool :=
  match classify line with
  | QtyLine _ => true
  | _ => false
  end.

(** Where the part and the quantity of an emitted item can come from:
    the part from the pending list or from a part line, the quantity from
    the final clean-up or from a quantity line. *)
Definition part_origin (lines : list string) (pending : list string)
    (p : string) : Prop :=
  In p pending
  \/ exists line parts,
       In line lines /\ classify line = PartLine parts /\ In p parts.

Definition qty_origin (lines : list string) (q : Z) : Prop :=
  q = 1 \/ exists line, In line lines /\ classify line = QtyLine q.



(** No column of the table answers to one of the keywords. *)
Definition unresolved (df : dataframe) (keywords : list string) : Prop :=
  forall c, In c (columns df) -> ~ In (normalize_label c) keywords.







(** A character of 7-bit ASCII, and a text made of such characters. *)
Definition is_ascii7 (c : ascii) : bool := (PyStr.code c <? 128)%N.

Definition ascii_text (s : string) : bool := PyStr.all_char is_ascii7 s.

(** A line that the loop passes over: blank, or a header or footer. *)
Definition is_skipped (line : string) : bool :=
  match classify line with
  | Skipped => true
  | _ => false
  end.

(** The word scan without its last test, the ignore set. *)
Definition keep_token_without_ignore (t : string) : bool :=
  negb (String.length t <? 3)%nat
  && PyStr.any_char PyStr.is_digit t
  && negb (is_phone t)
  && negb (is_date t)
  && negb (is_tail t)
  && negb (is_ordinal t).

(** A pattern whose groups each enclose a repetition of a class within
    [q]; its captures are strings over [q]. *)
Fixpoint class_groups (icase : bool) (q : ascii -> bool) (r : Regex.re) : Prop :=
  match r with
  | Regex.Grp _ (Regex.Rep p _ _) =>
      forall c, Regex.cls_ok icase p c = true -> q c = true
  | Regex.Grp _ _ => False
  | Regex.Seq r1 r2 | Regex.Alt r1 r2 =>
      class_groups icase q r1 /\ class_groups icase q r2
  | _ => True
  end.

Definition class_captures (q : ascii -> bool) (cs : Regex.captures) : Prop :=
  Forall (fun c => PyStr.all_char q (snd c) = true) cs.

(** ** Sample inputs *)

Definition inv_ab100 (q : Z) : list inventory_record :=
  [InventoryRecord "AB-100" (Some (CInt q)) (Some (CStr "NE"))].

Definition inv_ab12 : list inventory_record :=
  [InventoryRecord "ZZ-1" (Some (CInt 9)) None;
   InventoryRecord "AB12X9" (Some (CInt 4)) (Some (CStr "OH"));
   InventoryRecord "AB12X7" (Some (CInt 0)) (Some (CStr "NE"))].

Definition inv_bad_qty : list inventory_record :=
  [InventoryRecord "AB-100" (Some (CStr "12 pcs")) (Some (CStr "SV"));
   InventoryRecord "CD-200" (Some CNaN) (Some CNaN)].


Definition table_item_req : dataframe :=
  DataFrame [CStr "Item"; CStr "Req"] [[CStr "AB-100"; CInt 5]].

Definition table_pn_req : dataframe :=
  DataFrame [CStr " pn "; CStr "Req"] [[CStr "AB-100"; CInt 5]].

Definition sheet_no_part : dataframe :=
  DataFrame [CStr "Description"; CStr "Qty"] [[CStr "bolt"; CInt 4]].

Definition sheet_parts : dataframe :=
  DataFrame [CStr "Part Number"; CStr "Qty"] [[CStr "xy-200"; CStr "10"]].

(** A reader of sheets that knows three contents. *)
Definition sample_read_excel (bytes : string) : option dataframe :=
  if String.eqb bytes "no-part-column" then Some sheet_no_part
  else if String.eqb bytes "parts" then Some sheet_parts
  else None.

(** A reader of HTML that finds one table in a body that begins with
    a table tag, and raises on any other body. *)
Definition sample_read_html (html : string) : option (list dataframe) :=
  if PyStr.startswith "<table>" html then Some [sheet_no_part; sheet_parts]
  else None.

Definition sample_get_text (html : string) : option string := Some html.

Definition msg_rejected_sheet : message :=
  Message "C CHECK" "P/N: AB-100" true
    [Attachment "notes.txt" true "parts";
     Attachment "broken.xls" true "garbage";
     Attachment "list.XLSX" true "no-part-column"].

Definition msg_two_sheets : message :=
  Message "C CHECK" "<table>" true
    [Attachment "broken.xls" true "garbage";
     Attachment "req.xlsx" true "parts";
     Attachment "later.xlsx" true "parts"].

Definition msg_html : message :=
  Message "C CHECK" "<table>" true [Attachment "broken.xls" true "garbage"].

Definition msg_request : message :=
  Message "RE: C CHECK tail 21" "P/N: AB-100" false [].

Definition sample_recipients : list string := ["stores@example.com"].

Definition sample_clock (m : message) : string := "2024-05-01 09:30:00".

Definition sample_mail : report_mail :=
  ReportMail sample_recipients ("Inventory Alert: " +:+ subject msg_request)
    (generate_html_report (reconcile [Item "AB-100" 1] (inv_ab100 5))
       (subject msg_request) "Text Scanner" (sample_clock msg_request)).

Definition sample_inbox : list inbox_message :=
  [InboxMessage msg_html true;
   InboxMessage (Message "Inventory Alert: C CHECK" "P/N: ZZ-900" false [])
     false;
   InboxMessage msg_request false].

(** A sheet with a title row above its header, as first read, and the
    same sheet read below the header row. *)
Definition ledger_with_banner : dataframe :=
  DataFrame [CStr "Stock list"; CStr "Unnamed: 1"; CStr "Unnamed: 2"]
    [[CStr "as of May"; CNaN; CNaN];
     [CStr "PartNumber"; CStr "Qty"; CStr "Condition"];
     [CStr " ab-100 "; CInt 5; CStr "NE"];
     [CStr "cd-200"; CNaN; CNaN]].

Definition ledger_table : dataframe :=
  DataFrame [CStr "PartNumber"; CStr "Qty"; CStr "Condition"]
    [[CStr " ab-100 "; CInt 5; CStr "NE"];
     [CStr "cd-200"; CNaN; CNaN]].

Definition sample_read_sheet (file : string) (sheet : option string)
    (header : nat) : option dataframe :=
  match sheet, header with
  | Some _, O => Some ledger_with_banner
  | Some _, S (S O) => Some ledger_table
  | _, _ => None
  end.

Definition sample_exists (name : string) : bool :=
  String.eqb name "stock.xlsx".

Definition sample_ledger_mail : report_mail :=
  ReportMail sample_recipients ("Inventory Alert: " +:+ subject msg_request)
    (generate_html_report
       (reconcile [Item "AB-100" 1]
          (inventory_of (normalize_part_column (rename_columns ledger_table))))
       (subject msg_request) "Text Scanner" (sample_clock msg_request)).

(** * Properties *)

(** ** The matcher *)

Section Matcher_facts.

Implicit Types (df : list inventory_record) (it : item) (row : inventory_record).

Lemma classify_stock_stock p req row :
  r_stock_qty (classify_stock p req row) = stock_of row.
Proof.
  unfold classify_stock.
  destruct (stock_of row =? 0); [reflexivity|].
  destruct (stock_of row >=? req); reflexivity.
Qed.

Lemma classify_stock_condition p req row :
  r_condition (classify_stock p req row) = condition_of row.
Proof.
  unfold classify_stock.
  destruct (stock_of row =? 0); [reflexivity|].
  destruct (stock_of row >=? req); reflexivity.
Qed.

Lemma classify_stock_part p req row :
  r_part (classify_stock p req row) = p.
Proof.
  unfold classify_stock.
  destruct (stock_of row =? 0); [reflexivity|].
  destruct (stock_of row >=? req); reflexivity.
Qed.

Lemma classify_stock_out p req row :
  stock_of row = 0 ->
  classify_stock p req row = Result p OUT_OF_STOCK (condition_of row) req 0 0.
Proof. intros H. unfold classify_stock. rewrite H. reflexivity. Qed.

Lemma classify_stock_in p req row :
  stock_of row <> 0 -> req <= stock_of row ->
  classify_stock p req row =
  Result p IN_STOCK (condition_of row) req (stock_of row) (stock_of row - req).
Proof.
  intros Hnz Hge. unfold classify_stock.
  destruct (Z.eqb_spec (stock_of row) 0) as [E|_]; [contradiction|].
  rewrite Z.geb_leb. destruct (Z.leb_spec req (stock_of row)); [reflexivity|lia].
Qed.

Lemma classify_stock_low p req row :
  stock_of row <> 0 -> stock_of row < req ->
  classify_stock p req row =
  Result p (LOW_STOCK (stock_of row)) (condition_of row) req (stock_of row) 0.
Proof.
  intros Hnz Hlt. unfold classify_stock.
  destruct (Z.eqb_spec (stock_of row) 0) as [E|_]; [contradiction|].
  rewrite Z.geb_leb. destruct (Z.leb_spec req (stock_of row)); [lia|reflexivity].
Qed.

Lemma classify_stock_remaining p req row :
  0 <= r_remaining (classify_stock p req row).
Proof.
  unfold classify_stock.
  destruct (Z.eqb_spec (stock_of row) 0); simpl; [lia|].
  rewrite Z.geb_leb. destruct (Z.leb_spec req (stock_of row)); simpl; lia.
Qed.

(** The loop body is the status logic on the row that was found, under the
    requested part or under the annotated one. *)
Lemma reconcile_item_found df it row :
  found df (part it) row ->
  exists label, reconcile_item df it = classify_stock label (req_qty it) row.
Proof.
  unfold found, reconcile_item. intros H.
  destruct (exact_matches df (part it)) as [|r m].
  - destruct (prefix_matches df (part it)) as [|r m]; [discriminate|].
    injection H as ->. eexists. reflexivity.
  - subst r. eexists. reflexivity.
Qed.

Lemma reconcile_item_not_found df it :
  not_found df (part it) ->
  reconcile_item df it = Result (part it) MISSING NA (req_qty it) 0 0.
Proof.
  intros [He Hp]. unfold reconcile_item. rewrite He, Hp. reflexivity.
Qed.

Lemma found_or_not df p : not_found df p \/ exists row, found df p row.
Proof.
  unfold not_found, found.
  destruct (exact_matches df p) as [|r m]; [|right; eauto].
  destruct (prefix_matches df p) as [|r m]; [left; auto|right; eauto].
Qed.

(** The first element that a filter keeps. *)
Lemma filter_first {A} (f : A -> bool) (pre post : list A) (x : A) :
  (forall y, In y pre -> f y = false) -> f x = true ->
  List.filter f (pre ++ x :: post) = x :: List.filter f post.
Proof.
  intros Hpre Hx. induction pre as [|y pre IH]; simpl.
  - rewrite Hx. reflexivity.
  - rewrite (Hpre y) by (left; reflexivity).
    apply IH. intros z Hz. apply Hpre. right. exact Hz.
Qed.

Lemma filter_none {A} (f : A -> bool) (l : list A) :
  (forall y, In y l -> f y = false) -> List.filter f l = [].
Proof.
  intros H. induction l as [|y l IH]; simpl; [reflexivity|].
  rewrite (H y) by (left; reflexivity).
  apply IH. intros z Hz. apply H. right. exact Hz.
Qed.

End Matcher_facts.

(** C1.  A part with no exact and no prefix match is reported
    "MISSING (Unknown Part)" with condition N/A, stock 0 and remaining 0.
    For a part whose lookup settles on a row: stock 0 is "OUT OF STOCK"
    with remaining 0; stock at least the requested quantity is "IN STOCK"
    with remaining stock - requested, for every requested quantity of 1 or
    more (and for any other one when the stock is not 0); stock other than
    0 and below the requested quantity, in particular 0 < stock <
    requested, is "LOW STOCK (Have <stock>)" with remaining 0. *)
Theorem status_boundaries (df : list inventory_record) (it : item) :
  (not_found df (part it) ->
     reconcile_item df it
     = Result (part it) "MISSING (Unknown Part)" (CStr "N/A") (req_qty it) 0 0)
  /\ (forall row, found df (part it) row ->
       let res := reconcile_item df it in
       let stock := stock_of row in
       r_stock_qty res = stock
       /\ (stock = 0 -> r_status res = "OUT OF STOCK" /\ r_remaining res = 0)
       /\ (1 <= req_qty it \/ stock <> 0 -> req_qty it <= stock ->
            r_status res = "IN STOCK" /\ r_remaining res = stock - req_qty it)
       /\ (stock <> 0 -> stock < req_qty it ->
            r_status res = "LOW STOCK (Have " +:+ pretty stock +:+ ")"
            /\ r_remaining res = 0)).
Proof.
  split; [apply reconcile_item_not_found|].
  intros row Hf. destruct (reconcile_item_found df it row Hf) as [label E].
  simpl. rewrite E. split; [apply classify_stock_stock|].
  split; [|split].
  - intros H0. rewrite (classify_stock_out _ _ _ H0). auto.
  - intros Hor Hge.
    assert (Hnz : stock_of row <> 0) by (destruct Hor as [H1|Hnz]; [lia|exact Hnz]).
    rewrite (classify_stock_in _ _ _ Hnz Hge). auto.
  - intros Hnz Hlt. rewrite (classify_stock_low _ _ _ Hnz Hlt). auto.
Qed.

(** [status_boundaries] at the boundaries: no record; stock 0; stock 3 for
    3 requested; stock 5 for 3 requested; stock 2 for 3 requested. *)
Lemma status_boundaries_witness :
  reconcile_item (inv_ab100 5) (Item "ZZ-9" 3)
    = Result "ZZ-9" "MISSING (Unknown Part)" (CStr "N/A") 3 0 0
  /\ (r_status (reconcile_item (inv_ab100 0) (Item "AB-100" 3)) = "OUT OF STOCK"
      /\ r_remaining (reconcile_item (inv_ab100 0) (Item "AB-100" 3)) = 0)
  /\ (r_status (reconcile_item (inv_ab100 3) (Item "AB-100" 3)) = "IN STOCK"
      /\ r_remaining (reconcile_item (inv_ab100 3) (Item "AB-100" 3)) = 0)
  /\ (r_status (reconcile_item (inv_ab100 5) (Item "AB-100" 3)) = "IN STOCK"
      /\ r_remaining (reconcile_item (inv_ab100 5) (Item "AB-100" 3)) = 2)
  /\ (r_status (reconcile_item (inv_ab100 2) (Item "AB-100" 3))
        = "LOW STOCK (Have 2)"
      /\ r_remaining (reconcile_item (inv_ab100 2) (Item "AB-100" 3)) = 0).
Proof.
  pose proof (status_boundaries (inv_ab100 5) (Item "ZZ-9" 3)) as [Hm _].
  pose proof (proj2 (status_boundaries (inv_ab100 0) (Item "AB-100" 3))
                _ eq_refl) as (_ & H0 & _).
  pose proof (proj2 (status_boundaries (inv_ab100 3) (Item "AB-100" 3))
                _ eq_refl) as (_ & _ & Heq & _).
  pose proof (proj2 (status_boundaries (inv_ab100 5) (Item "AB-100" 3))
                _ eq_refl) as (_ & _ & Hin & _).
  pose proof (proj2 (status_boundaries (inv_ab100 2) (Item "AB-100" 3))
                _ eq_refl) as (_ & _ & _ & Hlow).
  split; [apply Hm; split; reflexivity|].
  split; [apply H0; reflexivity|].
  split; [apply Heq; [left; discriminate|discriminate]|].
  split; [apply Hin; [left; discriminate|discriminate]|].
  apply Hlow; [discriminate|reflexivity].
Defined.

(** C3.  When no inventory record carries the requested part exactly, the
    lookup settles on the first record in load order whose part number
    starts with the requested part: the result is the status logic on that
    record, displayed as "<requested> (Matched: <actual>)", with the stock
    quantity and the condition of that record. *)
Theorem prefix_fallback (df pre post : list inventory_record)
    (row : inventory_record) (it : item) :
  (forall r, In r df -> part_number r <> part it) ->
  df = pre ++ row :: post ->
  (forall r, In r pre -> PyStr.startswith (part it) (part_number r) = false) ->
  PyStr.startswith (part it) (part_number row) = true ->
  let res := reconcile_item df it in
  res = classify_stock (part it +:+ " (Matched: " +:+ part_number row +:+ ")")
          (req_qty it) row
  /\ r_part res = part it +:+ " (Matched: " +:+ part_number row +:+ ")"
  /\ r_stock_qty res = stock_of row
  /\ r_condition res = condition_of row.
Proof.
  intros Hex Hdf Hpre Hrow.
  assert (E : exact_matches df (part it) = []).
  { apply filter_none. intros r Hr. apply String.eqb_neq. auto. }
  assert (P : prefix_matches df (part it)
              = row :: prefix_matches post (part it)).
  { rewrite Hdf. unfold prefix_matches. apply filter_first; assumption. }
  assert (R : reconcile_item df it
              = classify_stock (matched_label (part it) (part_number row))
                  (req_qty it) row).
  { unfold reconcile_item. rewrite E, P. reflexivity. }
  simpl. rewrite R. unfold matched_label.
  split; [reflexivity|].
  split; [apply classify_stock_part|].
  split; [apply classify_stock_stock|apply classify_stock_condition].
Qed.

(** [prefix_fallback] for the part AB12 against an inventory that has
    AB12X9 before AB12X7 and no AB12. *)
Lemma prefix_fallback_witness :
  let res := reconcile_item inv_ab12 (Item "AB12" 2) in
  r_part res = "AB12 (Matched: AB12X9)"
  /\ r_stock_qty res = 4
  /\ r_condition res = CStr "OH".
Proof.
  assert (Hex : forall r, In r inv_ab12 -> part_number r <> "AB12").
  { intros r [<-|[<-|[<-|[]]]]; discriminate. }
  assert (Hpre : forall r,
            In r [InventoryRecord "ZZ-1" (Some (CInt 9)) None] ->
            PyStr.startswith "AB12" (part_number r) = false).
  { intros r [<-|[]]. reflexivity. }
  pose proof (prefix_fallback inv_ab12
                [InventoryRecord "ZZ-1" (Some (CInt 9)) None]
                [InventoryRecord "AB12X7" (Some (CInt 0)) (Some (CStr "NE"))]
                (InventoryRecord "AB12X9" (Some (CInt 4)) (Some (CStr "OH")))
                (Item "AB12" 2)
                Hex eq_refl Hpre eq_refl) as (_ & Hp & Hs & Hc).
  cbv zeta. split; [exact Hp|]. split; [exact Hs|exact Hc].
Defined.

(** C9.  The remaining field of a result is never negative.  Where the
    stock found is below the requested quantity the remaining is 0, and a
    stock other than 0 is reported as "LOW STOCK (Have <stock>)", the
    on-hand count in decimal. *)
Theorem remaining_never_negative (df : list inventory_record) (it : item) :
  0 <= r_remaining (reconcile_item df it)
  /\ (forall row, found df (part it) row -> stock_of row < req_qty it ->
       r_remaining (reconcile_item df it) = 0
       /\ (stock_of row <> 0 ->
           r_status (reconcile_item df it)
           = "LOW STOCK (Have " +:+ pretty (stock_of row) +:+ ")")).
Proof.
  split.
  - destruct (found_or_not df (part it)) as [Hn|[row Hf]].
    + rewrite (reconcile_item_not_found _ _ Hn). simpl. lia.
    + destruct (reconcile_item_found df it row Hf) as [label E].
      rewrite E. apply classify_stock_remaining.
  - intros row Hf Hlt.
    destruct (reconcile_item_found df it row Hf) as [label E]. rewrite E.
    destruct (Z.eq_dec (stock_of row) 0) as [H0|Hnz].
    + rewrite (classify_stock_out _ _ _ H0). split; [reflexivity|contradiction].
    + rewrite (classify_stock_low _ _ _ Hnz Hlt). split; reflexivity.
Qed.

(** [remaining_never_negative] for 10 requested against a stock of 4. *)
Lemma remaining_never_negative_witness :
  let res := reconcile_item (inv_ab100 4) (Item "AB-100" 10) in
  0 <= r_remaining res /\ r_remaining res = 0
  /\ r_status res = "LOW STOCK (Have 4)".
Proof.
  pose proof (remaining_never_negative (inv_ab100 4) (Item "AB-100" 10))
    as [Hge Hlow].
  destruct (Hlow _ eq_refl eq_refl) as [H0 Hs].
  simpl. split; [exact Hge|]. split; [exact H0|].
  apply Hs. discriminate.
Defined.

(** C10.  When the lookup settles on a row whose quantity cell [int]
    rejects, the stock is taken as 0: the item is OUT OF STOCK with
    remaining 0, not MISSING, and the condition is still that of the row,
    N/A standing for an absent or missing one.  The matcher is a total
    function, so nothing is raised. *)
Theorem unparsable_stock_is_out_of_stock (df : list inventory_record)
    (it : item) (row : inventory_record) (c : cell) :
  found df (part it) row ->
  quantity row = Some c ->
  py_int c = None ->
  let res := reconcile_item df it in
  r_stock_qty res = 0
  /\ r_status res = OUT_OF_STOCK
  /\ r_remaining res = 0
  /\ r_status res <> MISSING
  /\ r_condition res =
       match condition row with
       | Some v => if isna v then CStr "N/A" else v
       | None => CStr "N/A"
       end.
Proof.
  intros Hf Hq Hc.
  destruct (reconcile_item_found df it row Hf) as [label E].
  assert (H0 : stock_of row = 0).
  { unfold stock_of. rewrite Hq. simpl. rewrite Hc. reflexivity. }
  simpl. rewrite E, (classify_stock_out _ _ _ H0). simpl.
  repeat split; try discriminate.
  unfold condition_of. destruct (condition row); reflexivity.
Qed.

(** [unparsable_stock_is_out_of_stock] for a quantity cell that reads
    "12 pcs". *)
Lemma unparsable_stock_is_out_of_stock_witness :
  let res := reconcile_item inv_bad_qty (Item "AB-100" 2) in
  r_stock_qty res = 0 /\ r_status res = OUT_OF_STOCK
  /\ r_remaining res = 0 /\ r_condition res = CStr "SV".
Proof.
  pose proof (unparsable_stock_is_out_of_stock inv_bad_qty (Item "AB-100" 2)
                _ (CStr "12 pcs") eq_refl eq_refl eq_refl)
    as (Hs & Hst & Hr & _ & Hc).
  simpl. simpl in Hc. auto.
Defined.

(** ** The text scanner *)

Section Scanner_facts.

Implicit Types (st : scan_state) (lines : list string) (it : item).

Lemma in_with_qty it q parts :
  In it (with_qty q parts) <-> In (part it) parts /\ req_qty it = q.
Proof.
  unfold with_qty. rewrite in_map_iff. split.
  - intros (p & <- & Hp). auto.
  - intros [Hp <-]. exists (part it). destruct it. auto.
Qed.

Lemma process_line_skipped st line :
  classify line = Skipped -> process_line st line = st.
Proof. intros H. destruct st. unfold process_line. rewrite H. reflexivity. Qed.

Lemma process_line_qty results pending line q :
  classify line = QtyLine q ->
  process_line (results, pending) line = (results ++ with_qty q pending, []).
Proof. intros H. unfold process_line. rewrite H. reflexivity. Qed.

Lemma process_line_parts results pending line parts :
  classify line = PartLine parts ->
  process_line (results, pending) line = (results, pending ++ parts).
Proof. intros H. unfold process_line. rewrite H. reflexivity. Qed.

Lemma scan_lines_cons st line lines :
  scan_lines st (line :: lines) = scan_lines (process_line st line) lines.
Proof. reflexivity. Qed.

Lemma scan_lines_app st lines1 lines2 :
  scan_lines st (lines1 ++ lines2) = scan_lines (scan_lines st lines1) lines2.
Proof. apply fold_left_app. Qed.

(** A block without quantity lines only lengthens the pending list. *)
Lemma scan_lines_block lines : forall results pending,
  Forall (fun l => is_qty_line l = false) lines ->
  scan_lines (results, pending) lines = (results, pending ++ pending_of lines).
Proof.
  induction lines as [|l lines IH]; intros results pending Hb.
  - simpl. rewrite app_nil_r. reflexivity.
  - inversion Hb as [|? ? Hl Hrest]; subst.
    rewrite scan_lines_cons.
    change (pending_of (l :: lines)) with (line_pending l ++ pending_of lines).
    unfold is_qty_line in Hl. unfold line_pending.
    destruct (classify l) as [| q | parts] eqn:E; try discriminate.
    + rewrite (process_line_skipped _ _ E). apply IH, Hrest.
    + rewrite (process_line_parts _ _ _ _ E), IH by exact Hrest.
      rewrite <- app_assoc. reflexivity.
Qed.

(** Results already emitted stay in front. *)
Lemma scan_lines_prefix lines : forall front results pending,
  scan_lines (front ++ results, pending) lines =
  (front ++ fst (scan_lines (results, pending) lines),
   snd (scan_lines (results, pending) lines)).
Proof.
  induction lines as [|l lines IH]; intros front results pending.
  - reflexivity.
  - rewrite !scan_lines_cons.
    destruct (classify l) as [| q | parts] eqn:E.
    + rewrite !(process_line_skipped _ _ E). apply IH.
    + rewrite !(process_line_qty _ _ _ _ E), <- app_assoc. apply IH.
    + rewrite !(process_line_parts _ _ _ _ E). apply IH.
Qed.

Lemma part_origin_later l lines pending p :
  part_origin lines pending p -> part_origin (l :: lines) pending p.
Proof.
  intros [H|(line & parts & Hl & Hc & Hp)]; [left; exact H|].
  right. exists line, parts. split; [right; exact Hl|]. auto.
Qed.

Lemma qty_origin_later l lines q :
  qty_origin lines q -> qty_origin (l :: lines) q.
Proof.
  intros [H|(line & Hl & Hc)]; [left; exact H|].
  right. exists line. split; [right; exact Hl|exact Hc].
Qed.

(** Where an emitted item comes from. *)
Lemma scan_origin lines : forall st it,
  In it (flush (scan_lines st lines)) ->
  In it (fst st)
  \/ (part_origin lines (snd st) (part it) /\ qty_origin lines (req_qty it)).
Proof.
  induction lines as [|l lines IH]; intros [results pending] it Hin.
  - unfold flush in Hin. simpl in Hin. apply in_app_or in Hin.
    destruct Hin as [H|H]; [left; exact H|].
    apply in_with_qty in H. destruct H as [Hp Hq].
    right. split; left; assumption.
  - rewrite scan_lines_cons in Hin.
    destruct (classify l) as [| q | parts] eqn:E.
    + rewrite (process_line_skipped _ _ E) in Hin.
      destruct (IH _ _ Hin) as [H|[Hp Hq]]; [left; exact H|].
      right. split; [apply part_origin_later|apply qty_origin_later]; assumption.
    + rewrite (process_line_qty _ _ _ _ E) in Hin.
      destruct (IH _ _ Hin) as [H|[Hp Hq]].
      * simpl in H. apply in_app_or in H. destruct H as [H|H]; [left; exact H|].
        apply in_with_qty in H. destruct H as [Hp Hq]. right.
        split; [left; exact Hp|]. right. exists l.
        split; [left; reflexivity|]. rewrite Hq. exact E.
      * right. split; [|apply qty_origin_later; exact Hq].
        destruct Hp as [[]|Hp]. apply part_origin_later. right. exact Hp.
    + rewrite (process_line_parts _ _ _ _ E) in Hin.
      destruct (IH _ _ Hin) as [H|[Hp Hq]]; [left; exact H|].
      right. split; [|apply qty_origin_later; exact Hq].
      destruct Hp as [Hp|Hp].
      * simpl in Hp. apply in_app_or in Hp.
        destruct Hp as [Hp|Hp]; [left; exact Hp|].
        right. exists l, parts. split; [left; reflexivity|]. auto.
      * apply part_origin_later. right. exact Hp.
Qed.

(** A part line holds labelled parts and parts of the word scan. *)
Lemma classify_part_line line parts p :
  classify line = PartLine parts -> In p parts ->
  In p (explicit_parts (PyStr.strip line))
  \/ In p (implicit_parts (PyStr.strip line)).
Proof.
  unfold classify. intros H Hp.
  destruct (PyStr.is_empty (PyStr.strip line)); [discriminate|].
  destruct (PyStr.startswith_any _ _); [discriminate|].
  destruct (qty_of_line _); [discriminate|].
  injection H as <-.
  apply list_elem_of_In, elem_of_elements in Hp.
  unfold line_parts in Hp. apply elem_of_union in Hp.
  destruct Hp as [Hp|Hp]; apply elem_of_list_to_set, list_elem_of_In in Hp; auto.
Qed.

Lemma keep_token_shape t : keep_token t = true -> rejected_shape t = false.
Proof.
  unfold keep_token, rejected_shape. intros H.
  repeat (apply andb_prop in H; destruct H as [H ?]).
  repeat match goal with
         | H : negb _ = true |- _ => apply negb_true_iff in H
         end.
  repeat (apply orb_false_intro); assumption.
Qed.

End Scanner_facts.

(** C7.  A quantity line with value q turns every pending part into an
    item with quantity q and leaves nothing pending, whatever else the
    line holds; so the parts of a block of lines without a quantity line
    all get the quantity of the first quantity line after the block, and
    the parts that no quantity line follows get quantity 1 at the end. *)
Theorem quantity_fan_out :
  (forall results pending line q,
     classify line = QtyLine q ->
     process_line (results, pending) line
       = (results ++ with_qty q pending, []))
  /\ (forall block qline rest q,
        Forall (fun l => is_qty_line l = false) block ->
        classify qline = QtyLine q ->
        extract_lines (block ++ qline :: rest)
          = with_qty q (pending_of block) ++ extract_lines rest)
  /\ (forall lines,
        Forall (fun l => is_qty_line l = false) lines ->
        extract_lines lines = with_qty 1 (pending_of lines)).
Proof.
  split; [exact process_line_qty|]. split.
  - intros block qline rest q Hb Hq. unfold extract_lines.
    rewrite scan_lines_app, (scan_lines_block block [] [] Hb).
    rewrite scan_lines_cons, (process_line_qty _ _ _ _ Hq).
    change ([] ++ with_qty q ([] ++ pending_of block))
      with (with_qty q (pending_of block)).
    rewrite <- (app_nil_r (with_qty q (pending_of block))) at 1.
    rewrite scan_lines_prefix. unfold flush. simpl.
    rewrite app_assoc. reflexivity.
  - intros lines Hb. unfold extract_lines.
    rewrite (scan_lines_block lines [] [] Hb). reflexivity.
Qed.

(** [quantity_fan_out] on five lines: two parts, with a header line
    between them, then a quantity line, then a part that nothing follows. *)
Lemma quantity_fan_out_witness :
  extract_lines ["AB-100"; "to: QTY 9"; "CD-200."; "Qty: 5"; "EF-300"]
  = [Item "AB-100" 5; Item "CD-200" 5; Item "EF-300" 1].
Proof.
  destruct quantity_fan_out as (_ & Hfan & Hflush).
  assert (Hblock : Forall (fun l => is_qty_line l = false)
                     ["AB-100"; "to: QTY 9"; "CD-200."]).
  { repeat (apply List.Forall_cons; [vm_compute; reflexivity|]).
    apply List.Forall_nil. }
  assert (Hrest : Forall (fun l => is_qty_line l = false) ["EF-300"]).
  { repeat (apply List.Forall_cons; [vm_compute; reflexivity|]).
    apply List.Forall_nil. }
  assert (Hq : classify "Qty: 5" = QtyLine 5) by (vm_compute; reflexivity).
  etransitivity; [exact (Hfan _ _ ["EF-300"] _ Hblock Hq)|].
  rewrite (Hflush _ Hrest). vm_compute. reflexivity.
Defined.

(** C8, as amended.  The word scan of a line never yields a token of
    phone-number, date, tail-number or ordinal shape; an emitted part of
    such a shape was captured on some line by the labelled-part pattern
    (P/N, PN, PART, PART NO, PART NUMBER, ALT or ALTERNATE before it). *)
Theorem shape_rejection :
  (forall clean_line t,
     In t (implicit_parts clean_line) -> rejected_shape t = false)
  /\ (forall text it,
        In it (extract_data_from_text text) ->
        rejected_shape (part it) = true ->
        exists line, In line (PyStr.splitlines text)
                     /\ In (part it) (explicit_parts (PyStr.strip line))).
Proof.
  split.
  - intros clean_line t Ht. unfold implicit_parts in Ht.
    apply filter_In in Ht. apply keep_token_shape, Ht.
  - intros text it Hin Hshape.
    unfold extract_data_from_text, extract_lines in Hin.
    apply scan_origin in Hin.
    destruct Hin as [[]|[[[]|(line & parts & Hl & Hc & Hp)] _]].
    exists line. split; [exact Hl|].
    destruct (classify_part_line _ _ _ Hc Hp) as [He|Hi]; [exact He|].
    unfold implicit_parts in Hi. apply filter_In in Hi.
    destruct Hi as [_ Hk]. apply keep_token_shape in Hk. congruence.
Qed.

(** [shape_rejection] on a line whose only shaped token follows a label. *)
Lemma shape_rejection_witness :
  rejected_shape "N1234" = true
  /\ ~ In "N1234" (implicit_parts "call N1234 or PN: N1234")
  /\ exists line,
       In line (PyStr.splitlines "call N1234 or PN: N1234")
       /\ In "N1234" (explicit_parts (PyStr.strip line)).
Proof.
  destruct shape_rejection as [Himp Hexp].
  split; [vm_compute; reflexivity|]. split.
  - intros Hin. apply Himp in Hin. vm_compute in Hin. discriminate Hin.
  - apply (Hexp "call N1234 or PN: N1234" (Item "N1234" 1)).
    + vm_compute. left. reflexivity.
    + vm_compute. reflexivity.
Defined.

(** C8 as stated fails: a token of each of the four shapes is emitted as
    a part when a part label stands before it. *)
Lemma shape_rejection_counterexample :
  (is_phone "555-123-4567" = true
   /\ In (Item "555-123-4567" 1) (extract_data_from_text "PN: 555-123-4567"))
  /\ (is_date "04-12-2024" = true
      /\ In (Item "04-12-2024" 1) (extract_data_from_text "P/N: 04-12-2024"))
  /\ (is_tail "N1234" = true
      /\ In (Item "N1234" 1) (extract_data_from_text "PART N1234"))
  /\ (is_ordinal "21ST" = true
      /\ In (Item "21ST" 1) (extract_data_from_text "alt: 21st")).
Proof.
  split; [|split; [|split]]; (split; [vm_compute; reflexivity|]);
    vm_compute; left; reflexivity.
Qed.

(** ** Quantities *)

Section Regex_facts.

Variable icase : bool.

Lemma rep_match_split {A} p s : forall lo hi (k : string -> option A) x,
  Regex.rep_match icase p lo hi s k = Some x ->
  exists pre s', s = pre +:+ s'
    /\ PyStr.all_char (Regex.cls_ok icase p) pre = true
    /\ k s' = Some x.
Proof.
  induction s as [|c s IH]; intros lo hi k x H; simpl in H.
  - destruct (Nat.eqb lo 0); [|discriminate].
    exists EmptyString, EmptyString. auto.
  - destruct (Regex.cls_ok icase p c && Regex.hi_open hi) eqn:Hc.
    + destruct (Regex.rep_match icase p (Nat.pred lo) (Regex.hi_pred hi) s k)
        as [y|] eqn:R.
      * injection H as ->. destruct (IH _ _ _ _ R) as (pre & s' & -> & Hp & Hk).
        exists (String c pre), s'. simpl.
        apply andb_prop in Hc. destruct Hc as [-> _]. auto.
      * destruct (Nat.eqb lo 0); [|discriminate].
        exists EmptyString, (String c s). auto.
    + destruct (Nat.eqb lo 0); [|discriminate].
      exists EmptyString, (String c s). auto.
Qed.

Lemma string_length_app (s1 s2 : string) :
  String.length (s1 +:+ s2) = (String.length s1 + String.length s2)%nat.
Proof. induction s1 as [|c s1 IH]; simpl; [reflexivity|]. rewrite IH. reflexivity. Qed.

Lemma substring_prefix (pre s : string) :
  String.substring 0 (String.length pre) (pre +:+ s) = pre.
Proof. induction pre as [|c pre IH]; simpl; [destruct s; reflexivity|]. rewrite IH. reflexivity. Qed.

Lemma consumed_app (pre s : string) : Regex.consumed (pre +:+ s) s = pre.
Proof.
  unfold Regex.consumed. rewrite string_length_app.
  replace (String.length pre + String.length s - String.length s)%nat
    with (String.length pre) by lia.
  apply substring_prefix.
Qed.

Lemma all_char_impl (p q : ascii -> bool) s :
  (forall c, p c = true -> q c = true) ->
  PyStr.all_char p s = true -> PyStr.all_char q s = true.
Proof.
  intros Hpq. induction s as [|c s IH]; simpl; [reflexivity|].
  intros H. apply andb_prop in H. destruct H as [Hc Hs].
  rewrite (Hpq _ Hc), (IH Hs). reflexivity.
Qed.




End Regex_facts.

Section Quantity_facts.













End Quantity_facts.




(** ** Column resolution *)

Section Column_facts.

Implicit Types (cs : list cell) (m : gmap string cell) (k : string) (c : cell).

Lemma column_fold_some cs : forall m k c,
  fold_left (fun m c => <[normalize_label c := c]> m) cs m !! k = Some c ->
  (In c cs /\ normalize_label c = k) \/ m !! k = Some c.
Proof.
  induction cs as [|c0 cs IH]; intros m k c H; simpl in H; [right; exact H|].
  destruct (IH _ _ _ H) as [[Hin Hn]|Hm].
  - left. split; [right; exact Hin|exact Hn].
  - destruct (decide (normalize_label c0 = k)) as [E|E].
    + rewrite <- E, lookup_insert_eq in Hm. injection Hm as <-.
      left. split; [left; reflexivity|exact E].
    + rewrite lookup_insert_ne in Hm by exact E. right. exact Hm.
Qed.

Lemma column_fold_none cs : forall m k,
  fold_left (fun m c => <[normalize_label c := c]> m) cs m !! k = None <->
  m !! k = None /\ forall c, In c cs -> normalize_label c <> k.
Proof.
  induction cs as [|c0 cs IH]; intros m k; simpl.
  - split; [intros H; split; [exact H|intros c []]|intros [H _]; exact H].
  - rewrite IH. split.
    + intros [Hm Hcs].
      destruct (decide (normalize_label c0 = k)) as [E|E].
      * rewrite <- E, lookup_insert_eq in Hm. discriminate.
      * rewrite lookup_insert_ne in Hm by exact E.
        split; [exact Hm|]. intros c [<-|Hc]; [exact E|exact (Hcs c Hc)].
    + intros [Hm Hcs]. split.
      * rewrite lookup_insert_ne; [exact Hm|]. apply Hcs. left. reflexivity.
      * intros c Hc. apply Hcs. right. exact Hc.
Qed.

Lemma column_map_some cs k c :
  column_map cs !! k = Some c -> In c cs /\ normalize_label c = k.
Proof.
  intros H. destruct (column_fold_some _ _ _ _ H) as [?|Hm]; [assumption|].
  rewrite lookup_empty in Hm. discriminate.
Qed.

Lemma column_map_none cs k :
  column_map cs !! k = None <-> forall c, In c cs -> normalize_label c <> k.
Proof.
  unfold column_map. rewrite column_fold_none, lookup_empty. tauto.
Qed.

Lemma first_keyword_some m keywords c :
  first_keyword m keywords = Some c ->
  exists pre kw post, keywords = pre ++ kw :: post
    /\ (forall k', In k' pre -> m !! k' = None) /\ m !! kw = Some c.
Proof.
  induction keywords as [|kw keywords IH]; simpl; [discriminate|].
  destruct (m !! kw) as [c'|] eqn:E.
  - intros [= ->]. exists [], kw, keywords. split; [reflexivity|].
    split; [intros k' []|exact E].
  - intros H. destruct (IH H) as (pre & kw' & post & -> & Hpre & Hkw).
    exists (kw :: pre), kw', post. split; [reflexivity|].
    split; [|exact Hkw]. intros k' [<-|Hk]; [exact E|exact (Hpre _ Hk)].
Qed.

Lemma first_keyword_none m keywords :
  first_keyword m keywords = None <-> forall kw, In kw keywords -> m !! kw = None.
Proof.
  induction keywords as [|kw keywords IH]; simpl.
  - split; [intros _ kw []|reflexivity].
  - destruct (m !! kw) as [c'|] eqn:E.
    + split; [discriminate|]. intros H.
      rewrite (H kw) in E by (left; reflexivity). discriminate.
    + rewrite IH. split.
      * intros H k' [<-|Hk]; [exact E|exact (H _ Hk)].
      * intros H k' Hk. apply H. right. exact Hk.
Qed.

Lemma find_column_none df keywords :
  find_column_by_name df keywords = None <-> unresolved df keywords.
Proof.
  unfold find_column_by_name, unresolved. rewrite first_keyword_none. split.
  - intros H c Hc Hk. specialize (H _ Hk).
    rewrite column_map_none in H. exact (H c Hc eq_refl).
  - intros H kw Hk. apply column_map_none. intros c Hc <-. exact (H c Hc Hk).
Qed.

Lemma find_column_some df keywords c :
  find_column_by_name df keywords = Some c ->
  In c (columns df)
  /\ exists pre post, keywords = pre ++ normalize_label c :: post
       /\ forall k' c', In k' pre -> In c' (columns df) ->
                        normalize_label c' <> k'.
Proof.
  unfold find_column_by_name. intros H.
  destruct (first_keyword_some _ _ _ H) as (pre & kw & post & -> & Hpre & Hkw).
  destruct (column_map_some _ _ _ Hkw) as [Hin <-].
  split; [exact Hin|]. exists pre, post. split; [reflexivity|].
  intros k' c' Hk' Hc'. exact (proj1 (column_map_none _ _) (Hpre _ Hk') _ Hc').
Qed.

End Column_facts.

(** C6, as amended.  A column is resolved by looking up the candidates, in
    list order, among the upper-cased and trimmed column names: the first
    candidate that names a column wins, and nothing resolves exactly when
    no column answers to a candidate.  A spreadsheet is read with the
    candidates P/N, PN, PART, PART NUMBER, ITEM for the part number and
    QTY, QUANTITY, REQ, QTY REQ for the quantity and is rejected without a
    part-number column.  An HTML table is read with P/N, PN, PART,
    PART NUMBER and with QTY, QUANTITY, on its header and, failing that for
    a table that is not empty, on its first row taken as header; it is
    rejected when neither resolves a part-number column. *)
Theorem column_resolution :
  (forall df keywords c,
     find_column_by_name df keywords = Some c ->
     In c (columns df)
     /\ exists pre post, keywords = pre ++ normalize_label c :: post
          /\ forall k' c', In k' pre -> In c' (columns df) ->
                           normalize_label c' <> k')
  /\ (forall df keywords,
        find_column_by_name df keywords = None <-> unresolved df keywords)
  /\ (forall df,
        excel_extract df =
        match find_column_by_name df
                ["P/N"; "PN"; "PART"; "PART NUMBER"; "ITEM"] with
        | Some pc =>
            Some (table_items df pc
                    (find_column_by_name df
                       ["QTY"; "QUANTITY"; "REQ"; "QTY REQ"]))
        | None => None
        end)
  /\ (forall df,
        excel_extract df = None <->
        unresolved df ["P/N"; "PN"; "PART"; "PART NUMBER"; "ITEM"])
  /\ (forall df pc,
        find_column_by_name df ["P/N"; "PN"; "PART"; "PART NUMBER"] = Some pc ->
        html_extract df =
        Some (table_items df pc (find_column_by_name df ["QTY"; "QUANTITY"])))
  /\ (forall df pc,
        unresolved df ["P/N"; "PN"; "PART"; "PART NUMBER"] ->
        df_empty df = false ->
        find_column_by_name (promote_header df)
          ["P/N"; "PN"; "PART"; "PART NUMBER"] = Some pc ->
        html_extract df =
        Some (table_items (promote_header df) pc
                (find_column_by_name (promote_header df) ["QTY"; "QUANTITY"])))
  /\ (forall df,
        html_extract df = None <->
        unresolved df ["P/N"; "PN"; "PART"; "PART NUMBER"]
        /\ (df_empty df = true
            \/ unresolved (promote_header df)
                 ["P/N"; "PN"; "PART"; "PART NUMBER"])).
Proof.
  split; [exact find_column_some|].
  split; [exact find_column_none|].
  split; [reflexivity|].
  split.
  { intros df. rewrite <- find_column_none. unfold excel_extract.
    fold EXCEL_PART_KEYWORDS.
    destruct (find_column_by_name df EXCEL_PART_KEYWORDS);
      split; congruence. }
  split.
  { intros df pc H. unfold html_extract. fold HTML_PART_KEYWORDS in H.
    rewrite H. reflexivity. }
  split.
  { intros df pc Hn He Hp. apply find_column_none in Hn.
    unfold html_extract. fold HTML_PART_KEYWORDS in Hn, Hp.
    rewrite Hn, He. simpl. rewrite Hp. reflexivity. }
  intros df. rewrite <- !find_column_none. unfold html_extract.
  fold HTML_PART_KEYWORDS.
  destruct (find_column_by_name df HTML_PART_KEYWORDS) as [pc|].
  - split; [discriminate|]. intros [H _]. discriminate.
  - destruct (df_empty df); simpl.
    + split; auto.
    + destruct (find_column_by_name (promote_header df) HTML_PART_KEYWORDS).
      * split; [discriminate|]. intros [_ [H|H]]; discriminate.
      * split; auto.
Qed.

(** [column_resolution] on a table whose columns read " pn " and "Req":
    PN, the second candidate, resolves; so does the first row of an HTML
    table without header. *)
Lemma column_resolution_witness :
  In (CStr " pn ") (columns table_pn_req)
  /\ html_extract table_pn_req = Some [Item "AB-100" 1]
  /\ html_extract (DataFrame [CInt 0; CInt 1] (columns table_pn_req :: rows table_pn_req))
     = Some [Item "AB-100" 1].
Proof.
  destruct column_resolution as (Hsome & _ & _ & _ & Hhtml & Hprom & _).
  split; [|split].
  - apply (Hsome table_pn_req ["P/N"; "PN"; "PART"; "PART NUMBER"]).
    vm_compute. reflexivity.
  - rewrite (Hhtml table_pn_req (CStr " pn ")); vm_compute; reflexivity.
  - rewrite (Hprom _ (CStr " pn ")).
    + vm_compute. reflexivity.
    + intros c [<-|[<-|[]]]; vm_compute; intuition discriminate.
    + reflexivity.
    + vm_compute. reflexivity.
Defined.

(** C6 as stated fails for HTML tables: a table whose columns read "Item"
    and "Req" resolves as a spreadsheet and is rejected as an HTML table,
    and a quantity column that reads "Req" is resolved in a spreadsheet and
    not in an HTML table. *)
Lemma column_resolution_counterexample :
  excel_extract table_item_req = Some [Item "AB-100" 5]
  /\ html_extract table_item_req = None
  /\ excel_extract table_pn_req = Some [Item "AB-100" 5]
  /\ html_extract table_pn_req = Some [Item "AB-100" 1].
Proof.
  split; [vm_compute; reflexivity|].
  split; [vm_compute; reflexivity|].
  split; vm_compute; reflexivity.
Qed.

(** ** The master parser *)

Section Extraction_facts.

Variable read_excel : string -> option dataframe.
Variable read_html : string -> option (list dataframe).
Variable get_text : string -> option string.

Lemma attachment_loop_app atts1 : forall fs atts2,
  attachment_loop read_excel fs (atts1 ++ atts2) =
  match attachment_loop read_excel fs atts1 with
  | (Some r, fs') => (Some r, fs')
  | (None, fs') => attachment_loop read_excel fs' atts2
  end.
Proof.
  induction atts1 as [|a atts1 IH]; intros fs atts2; simpl; [reflexivity|].
  destruct (is_spreadsheet_name (att_name a)); [|apply IH].
  destruct (try_attachment read_excel fs a) as [[r|] fs']; [reflexivity|apply IH].
Qed.

Lemma attachment_loop_first pre a post fs fs0 r fs1 :
  attachment_loop read_excel fs pre = (None, fs0) ->
  is_spreadsheet_name (att_name a) = true ->
  try_attachment read_excel fs0 a = (Some r, fs1) ->
  attachment_loop read_excel fs (pre ++ a :: post) = (Some r, fs1).
Proof.
  intros Hpre Hname Htry. rewrite attachment_loop_app, Hpre. simpl.
  rewrite Hname, Htry. reflexivity.
Qed.

(** The handled exception: the file is missing or [read_excel] raises. *)
Lemma try_attachment_error fs a :
  saved fs a !! att_name a ≫= read_excel = None ->
  try_attachment read_excel fs a = (None, saved fs a).
Proof.
  unfold try_attachment, saved. intros H. rewrite H. reflexivity.
Qed.

Lemma try_attachment_unresolved fs a df :
  saved fs a !! att_name a ≫= read_excel = Some df ->
  excel_extract df = None ->
  try_attachment read_excel fs a = (None, saved fs a).
Proof.
  unfold try_attachment, saved. intros H He. rewrite H, He. reflexivity.
Qed.

(** The one path on which [os.remove] runs. *)
Lemma try_attachment_success fs a df extracted :
  saved fs a !! att_name a ≫= read_excel = Some df ->
  excel_extract df = Some extracted ->
  try_attachment read_excel fs a =
  (Some (extracted, "Excel (" +:+ att_name a +:+ ")"),
   delete (att_name a) (saved fs a)).
Proof.
  unfold try_attachment, saved. intros H He. rewrite H, He. reflexivity.
Qed.

Lemma html_tables_first pre : forall df post extracted,
  (forall d, In d pre -> html_extract d = None) ->
  html_extract df = Some extracted ->
  html_tables (pre ++ df :: post) = Some extracted.
Proof.
  induction pre as [|d pre IH]; intros df post extracted Hpre Hdf; simpl.
  - rewrite Hdf. reflexivity.
  - rewrite (Hpre d) by (left; reflexivity).
    apply IH; [|exact Hdf]. intros d' Hd'. apply Hpre. right. exact Hd'.
Qed.

Lemma html_tables_none dfs :
  (forall d, In d dfs -> html_extract d = None) -> html_tables dfs = None.
Proof.
  induction dfs as [|d dfs IH]; intros H; simpl; [reflexivity|].
  rewrite (H d) by (left; reflexivity).
  apply IH. intros d' Hd'. apply H. right. exact Hd'.
Qed.

End Extraction_facts.

(** C4.  The strategies are tried in the order attachment, HTML table,
    text scan, and the output is that of exactly one of them.  The first
    spreadsheet attachment that resolves a part-number column returns at
    once, whatever the later attachments and the body hold.  When no
    attachment does, the first HTML table that resolves one returns.  An
    attachment that cannot be read is passed over, and a body on which
    [read_html] raises, or none of whose tables resolves, leaves the text
    scan, which returns the list scanned from the subject and the text of
    the body. *)
Theorem strategy_priority
    (read_excel : string -> option dataframe)
    (read_html : string -> option (list dataframe))
    (get_text : string -> option string)
    (fs : temp_dir) (msg : message) :
  let out := extract_data_from_email read_excel read_html get_text fs msg in
  (forall pre a post fs0 r fs1,
     has_attachments msg = true ->
     attachments msg = pre ++ a :: post ->
     attachment_loop read_excel fs pre = (None, fs0) ->
     is_spreadsheet_name (att_name a) = true ->
     try_attachment read_excel fs0 a = (Some r, fs1) ->
     out = (r, fs1))
  /\ (forall fs' pre df post extracted,
        attachment_strategy read_excel fs msg = (None, fs') ->
        PyStr.is_empty (body msg) = false ->
        read_html (body msg) = Some (pre ++ df :: post) ->
        (forall d, In d pre -> html_extract d = None) ->
        html_extract df = Some extracted ->
        out = ((extracted, "HTML Table"), fs'))
  /\ (forall fs',
        attachment_strategy read_excel fs msg = (None, fs') ->
        (PyStr.is_empty (body msg) = true
         \/ read_html (body msg) = None
         \/ exists dfs, read_html (body msg) = Some dfs
                        /\ forall d, In d dfs -> html_extract d = None) ->
        out = ((extract_data_from_text
                  (subject msg +:+ LF
                   +:+ default EmptyString (get_text (body msg))),
                "Text Scanner"), fs'))
  /\ (forall fs0 a rest,
        is_spreadsheet_name (att_name a) = true ->
        saved fs0 a !! att_name a ≫= read_excel = None ->
        attachment_loop read_excel fs0 (a :: rest)
        = attachment_loop read_excel (saved fs0 a) rest)
  /\ ((exists r fs',
         attachment_strategy read_excel fs msg = (Some r, fs') /\ fst out = r)
      \/ (fst (attachment_strategy read_excel fs msg) = None
          /\ exists r, html_strategy read_html msg = Some r /\ fst out = r)
      \/ (fst (attachment_strategy read_excel fs msg) = None
          /\ html_strategy read_html msg = None
          /\ fst out = text_strategy get_text msg)).
Proof.
  cbv zeta. unfold extract_data_from_email.
  split; [|split; [|split; [|split]]].
  - intros pre a post fs0 r fs1 Hhas Hatts Hpre Hname Htry.
    unfold attachment_strategy. rewrite Hhas, Hatts.
    rewrite (attachment_loop_first read_excel _ _ post _ _ _ _ Hpre Hname Htry).
    reflexivity.
  - intros fs' pre df post extracted Hatt Hbody Hread Hpre Hdf.
    rewrite Hatt. unfold html_strategy. rewrite Hbody, Hread. simpl.
    rewrite (html_tables_first _ _ _ _ Hpre Hdf). reflexivity.
  - intros fs' Hatt Hhtml. rewrite Hatt.
    assert (E : html_strategy read_html msg = None).
    { unfold html_strategy.
      destruct Hhtml as [Hb|[Hr|(dfs & Hr & Hn)]].
      - rewrite Hb. reflexivity.
      - rewrite Hr. destruct (PyStr.is_empty (body msg)); reflexivity.
      - rewrite Hr. simpl. rewrite (html_tables_none _ Hn).
        destruct (PyStr.is_empty (body msg)); reflexivity. }
    rewrite E. reflexivity.
  - intros fs0 a rest Hname Herr. simpl.
    rewrite Hname, (try_attachment_error read_excel _ _ Herr). reflexivity.
  - destruct (attachment_strategy read_excel fs msg) as [[r|] fs'].
    + left. eauto.
    + right. destruct (html_strategy read_html msg) as [r|].
      * left. eauto.
      * right. auto.
Qed.

(** [strategy_priority] on three messages: a second attachment that
    resolves, after one that cannot be read and before a third; a body
    whose second table resolves; and a body on which [read_html] raises. *)
Lemma strategy_priority_witness :
  fst (extract_data_from_email sample_read_excel sample_read_html
         sample_get_text ∅ msg_two_sheets)
    = ([Item "XY-200" 10], "Excel (req.xlsx)")
  /\ fst (extract_data_from_email sample_read_excel sample_read_html
            sample_get_text ∅ msg_html)
     = ([Item "XY-200" 10], "HTML Table")
  /\ fst (extract_data_from_email sample_read_excel sample_read_html
            sample_get_text ∅ msg_rejected_sheet)
     = ([Item "AB-100" 1], "Text Scanner").
Proof.
  split; [|split].
  - pose proof (strategy_priority sample_read_excel sample_read_html
                  sample_get_text ∅ msg_two_sheets) as (H1 & _).
    rewrite (H1 [Attachment "broken.xls" true "garbage"]
               (Attachment "req.xlsx" true "parts")
               [Attachment "later.xlsx" true "parts"]
               (<["broken.xls" := "garbage"]> ∅)
               ([Item "XY-200" 10], "Excel (req.xlsx)")
               (delete "req.xlsx"
                  (<["req.xlsx" := "parts"]> (<["broken.xls" := "garbage"]> ∅))));
      reflexivity.
  - pose proof (strategy_priority sample_read_excel sample_read_html
                  sample_get_text ∅ msg_html) as (_ & H2 & _).
    rewrite (H2 (<["broken.xls" := "garbage"]> ∅) [sheet_no_part] sheet_parts []
               [Item "XY-200" 10]); try reflexivity.
    intros d [<-|[]]. reflexivity.
  - pose proof (strategy_priority sample_read_excel sample_read_html
                  sample_get_text ∅ msg_rejected_sheet) as (_ & _ & H3 & _).
    rewrite (H3 (<["list.XLSX" := "no-part-column"]>
                   (<["broken.xls" := "garbage"]> ∅))).
    + vm_compute. reflexivity.
    + reflexivity.
    + right. left. reflexivity.
Defined.

(** ** The temporary copy of an attachment *)

Section Cleanup_facts.

Variable read_excel : string -> option dataframe.

(** The copy is removed when the sheet yields its items. *)
Lemma try_attachment_removes fs a r fs' :
  try_attachment read_excel fs a = (Some r, fs') ->
  fs' !! att_name a = None.
Proof.
  unfold try_attachment.
  destruct (saved fs a !! att_name a ≫= read_excel) as [df|]; [|discriminate].
  destruct (excel_extract df); [|discriminate].
  intros [= _ <-]. apply lookup_delete_eq.
Qed.

(** The copy stays when the attempt on a saved attachment yields nothing. *)
Lemma try_attachment_keeps fs a fs' :
  try_attachment read_excel fs a = (None, fs') ->
  att_saves a = true ->
  fs' !! att_name a = Some (att_content a).
Proof.
  unfold try_attachment. intros H Hs.
  assert (E : saved fs a !! att_name a = Some (att_content a)).
  { unfold saved. rewrite Hs. apply lookup_insert_eq. }
  destruct (saved fs a !! att_name a ≫= read_excel) as [df|].
  - destruct (excel_extract df); [discriminate|].
    injection H as <-. exact E.
  - injection H as <-. exact E.
Qed.

End Cleanup_facts.

(** C5, on the code.  After a message whose spreadsheet attachments are
    one that [read_excel] rejects and one without a part-number column,
    both temporary copies are still in the temp directory; the copy is
    removed only on the path that returns the items of a sheet. *)
Theorem temp_copy_left_behind :
  let kept := snd (extract_data_from_email sample_read_excel sample_read_html
                     sample_get_text ∅ msg_rejected_sheet) in
  let removed := snd (extract_data_from_email sample_read_excel sample_read_html
                        sample_get_text ∅ msg_two_sheets) in
  kept !! "broken.xls" = Some "garbage"
  /\ kept !! "list.XLSX" = Some "no-part-column"
  /\ removed !! "req.xlsx" = None.
Proof.
  split; [vm_compute; reflexivity|].
  split; vm_compute; reflexivity.
Qed.

(** ** The scenarios of the specification *)

Example scenario_text :
  reconcile (extract_data_from_text ("P/N: AB-100" +:+ LF +:+ "QTY: 3"))
    (inv_ab100 5)
  = [Result "AB-100" IN_STOCK (CStr "NE") 3 5 2].
Proof. vm_compute. reflexivity. Qed.

Example scenario_html :
  option_map (fun items =>
                List.map r_status
                  (reconcile items
                     [InventoryRecord "XY-200" (Some (CInt 4)) None]))
    (html_extract sheet_parts)
  = Some ["LOW STOCK (Have 4)"].
Proof. vm_compute. reflexivity. Qed.

Example scenario_ignore_tokens : implicit_parts "USED BOLT ASSY" = [].
Proof. vm_compute. reflexivity. Qed.

Example scenario_fan_out :
  process_line ([], ["A-1"; "B-2"]) "Qty: 5"
  = ([Item "A-1" 5; Item "B-2" 5], []).
Proof. vm_compute. reflexivity. Qed.

Example scenario_labelled_part :
  extract_data_from_text "Part Number: zz-9"
  = List.map (fun p => Item p 1)
      (elements (list_to_set ["NUMBER"; "ZZ-9"] : gset string)).
Proof. vm_compute. reflexivity. Qed.

(** * Further properties of the code *)

(** ** The text scanner: what is emitted *)

Section Emission_facts.

Implicit Types (st : scan_state) (lines : list string) (it : item).

Lemma map_part_with_qty q parts : List.map part (with_qty q parts) = parts.
Proof.
  unfold with_qty. rewrite List.map_map. simpl. apply List.map_id.
Qed.

(** The loop neither drops nor repeats a pending part. *)
Lemma scan_parts lines : forall st,
  List.map part (flush (scan_lines st lines))
  = List.map part (fst st) ++ snd st ++ pending_of lines.
Proof.
  induction lines as [|l lines IH]; intros [results pending].
  - unfold flush. simpl. rewrite List.map_app, map_part_with_qty, app_nil_r.
    reflexivity.
  - rewrite scan_lines_cons.
    change (pending_of (l :: lines)) with (line_pending l ++ pending_of lines).
    unfold line_pending. destruct (classify l) as [| q | parts] eqn:E.
    + rewrite (process_line_skipped _ _ E). apply IH.
    + rewrite (process_line_qty _ _ _ _ E), IH. simpl.
      rewrite List.map_app, map_part_with_qty, <- app_assoc. reflexivity.
    + rewrite (process_line_parts _ _ _ _ E), IH. simpl.
      rewrite <- app_assoc. reflexivity.
Qed.

Lemma scan_lines_skipped lines : forall st,
  scan_lines st (List.filter (fun l => negb (is_skipped l)) lines)
  = scan_lines st lines.
Proof.
  induction lines as [|l lines IH]; intros st; [reflexivity|].
  cbn [List.filter]. unfold is_skipped at 1.
  destruct (classify l) as [| q | parts] eqn:E; cbn [negb].
  - rewrite (scan_lines_cons st), (process_line_skipped _ _ E). apply IH.
  - rewrite !scan_lines_cons. apply IH.
  - rewrite !scan_lines_cons. apply IH.
Qed.

Lemma scan_lines_qty_last lines qline results pending :
  is_qty_line qline = true ->
  snd (scan_lines (results, pending) (lines ++ [qline])) = [].
Proof.
  intros Hq. rewrite scan_lines_app.
  destruct (scan_lines (results, pending) lines) as [r p].
  unfold is_qty_line in Hq.
  destruct (classify qline) as [| q | parts] eqn:E; try discriminate.
  rewrite scan_lines_cons, (process_line_qty _ _ _ _ E). reflexivity.
Qed.

Lemma any_char_lstrip (p q : ascii -> bool) s :
  PyStr.any_char p s = false -> PyStr.any_char p (PyStr.lstrip q s) = false.
Proof.
  induction s as [|c s IH]; simpl; [reflexivity|].
  intros H. destruct (q c); [|exact H].
  apply orb_false_elim in H. apply IH, H.
Qed.

Lemma any_char_rstrip (p q : ascii -> bool) s :
  PyStr.any_char p s = false -> PyStr.any_char p (PyStr.rstrip q s) = false.
Proof.
  induction s as [|c s IH]; simpl; [reflexivity|].
  intros H. apply orb_false_elim in H. destruct H as [Hc Hs].
  destruct (PyStr.is_empty (PyStr.rstrip q s) && q c); [reflexivity|].
  simpl. rewrite Hc, (IH Hs). reflexivity.
Qed.

Lemma any_char_strip_chars (p : ascii -> bool) cs s :
  PyStr.any_char p s = false ->
  PyStr.any_char p (PyStr.strip_chars cs s) = false.
Proof.
  intros H. unfold PyStr.strip_chars, PyStr.strip_with.
  apply any_char_rstrip, any_char_lstrip, H.
Qed.

Lemma upper_char_not_lower c : PyStr.is_lower (PyStr.upper_char c) = false.
Proof. destruct c as [[] [] [] [] [] [] [] []]; vm_compute; reflexivity. Qed.

Lemma upper_no_lower s : PyStr.any_char PyStr.is_lower (PyStr.upper s) = false.
Proof.
  induction s as [|c s IH]; simpl; [reflexivity|].
  rewrite upper_char_not_lower, IH. reflexivity.
Qed.

(** A part of a line, labelled or not, is normalised and long enough. *)
Lemma explicit_part_normal clean_line p :
  In p (explicit_parts clean_line) ->
  (3 <= String.length p)%nat /\ PyStr.any_char PyStr.is_lower p = false.
Proof.
  unfold explicit_parts. rewrite filter_In, in_map_iff.
  intros [(g & <- & _) Hlen]. split.
  - apply Nat.ltb_lt in Hlen. lia.
  - apply any_char_strip_chars, upper_no_lower.
Qed.

Lemma implicit_part_normal clean_line p :
  In p (implicit_parts clean_line) ->
  (3 <= String.length p)%nat /\ PyStr.any_char PyStr.is_lower p = false.
Proof.
  unfold implicit_parts. rewrite filter_In, in_map_iff.
  intros [(token & <- & _) Hk]. split.
  - unfold keep_token in Hk.
    repeat (apply andb_prop in Hk; destruct Hk as [Hk ?]).
    apply negb_true_iff, Nat.ltb_ge in Hk. exact Hk.
  - apply any_char_strip_chars, upper_no_lower.
Qed.

Lemma implicit_part_digit clean_line p :
  In p (implicit_parts clean_line) ->
  PyStr.any_char PyStr.is_digit p = true.
Proof.
  unfold implicit_parts. rewrite filter_In. intros [_ Hk].
  unfold keep_token in Hk.
  repeat (apply andb_prop in Hk; destruct Hk as [Hk ?]). assumption.
Qed.

(** The part of an emitted item stood on a part line of the text. *)
Lemma emitted_part_line text it :
  In it (extract_data_from_text text) ->
  exists line, In line (PyStr.splitlines text)
    /\ (In (part it) (explicit_parts (PyStr.strip line))
        \/ In (part it) (implicit_parts (PyStr.strip line))).
Proof.
  intros Hin. unfold extract_data_from_text, extract_lines in Hin.
  apply scan_origin in Hin.
  destruct Hin as [[]|[[[]|(line & parts & Hl & Hc & Hp)] _]].
  exists line. split; [exact Hl|]. exact (classify_part_line _ _ _ Hc Hp).
Qed.

End Emission_facts.

(** X1.  The parts of the items that the text scanner emits are, in
    order, the parts found on the part lines of the text: a quantity line
    or the end of the text emits every pending part once, and nothing
    else is emitted. *)
Theorem emitted_parts_are_pending (text : string) :
  List.map part (extract_data_from_text text)
  = pending_of (PyStr.splitlines text).
Proof.
  unfold extract_data_from_text, extract_lines.
  rewrite scan_parts. reflexivity.
Qed.

(** X2.  A quantity line closes a block: the scan of the lines up to and
    including a quantity line, followed by the scan of the lines after it,
    is the scan of the whole. *)
Theorem quantity_line_is_barrier (lines1 lines2 : list string) (qline : string) :
  is_qty_line qline = true ->
  extract_lines (lines1 ++ qline :: lines2)
  = extract_lines (lines1 ++ [qline]) ++ extract_lines lines2.
Proof.
  intros Hq. unfold extract_lines.
  replace (lines1 ++ qline :: lines2) with ((lines1 ++ [qline]) ++ lines2)
    by (rewrite <- app_assoc; reflexivity).
  rewrite scan_lines_app.
  pose proof (scan_lines_qty_last lines1 qline [] [] Hq) as Hp.
  destruct (scan_lines ([], []) (lines1 ++ [qline])) as [r p]. simpl in Hp.
  subst p. unfold flush at 2. simpl. rewrite app_nil_r.
  rewrite <- (app_nil_r r) at 1. rewrite scan_lines_prefix.
  unfold flush. simpl. rewrite app_assoc. reflexivity.
Qed.

(** [quantity_line_is_barrier] with a part before and a part after a
    quantity line. *)
Lemma quantity_line_is_barrier_witness :
  extract_lines (["AB-100"] ++ "4 EA" :: ["CD-200"; "QTY 2"])
  = [Item "AB-100" 4] ++ [Item "CD-200" 2].
Proof.
  rewrite (quantity_line_is_barrier ["AB-100"] ["CD-200"; "QTY 2"] "4 EA").
  - vm_compute. reflexivity.
  - vm_compute. reflexivity.
Defined.

(** A line is passed over exactly when it is blank or begins, after
    stripping and in upper case, with one of the eight header labels. *)
Lemma is_skipped_blank_or_header (line : string) :
  is_skipped line
  = PyStr.is_empty (PyStr.strip line)
    || PyStr.startswith_any
         ["AIRCRAFT:"; "REASON:"; "SUBJECT:"; "FROM:"; "TO:"; "SENT:";
          "ADDRESS:"; "SHIP TO:"]
         (PyStr.upper (PyStr.strip line)).
Proof.
  unfold is_skipped, classify.
  change header_prefixes
    with ["AIRCRAFT:"; "REASON:"; "SUBJECT:"; "FROM:"; "TO:"; "SENT:";
          "ADDRESS:"; "SHIP TO:"].
  destruct (PyStr.is_empty (PyStr.strip line)); [reflexivity|].
  destruct (PyStr.startswith_any _ _); [reflexivity|].
  destruct (qty_of_line (PyStr.strip line)); reflexivity.
Qed.

(** X3.  A line that is blank after stripping, and a line that after
    stripping begins, in any letter case, with one of the labels
    AIRCRAFT:, REASON:, SUBJECT:, FROM:, TO:, SENT:, ADDRESS:, SHIP TO:,
    has no effect, even when it holds a quantity or a part: the scan of a
    list of lines is the scan of the list without these lines.  These are
    the only lines that are neither a quantity line nor a part line. *)
Theorem skipped_lines_are_inert (lines : list string) :
  let blank l := PyStr.is_empty (PyStr.strip l) in
  let header l :=
    PyStr.startswith_any
      ["AIRCRAFT:"; "REASON:"; "SUBJECT:"; "FROM:"; "TO:"; "SENT:";
       "ADDRESS:"; "SHIP TO:"]
      (PyStr.upper (PyStr.strip l)) in
  extract_lines (List.filter (fun l => negb (blank l || header l)) lines)
  = extract_lines lines
  /\ (forall l, classify l = Skipped <-> blank l || header l = true).
Proof.
  cbv zeta. split.
  - unfold extract_lines. rewrite <- (scan_lines_skipped lines).
    f_equal. f_equal. apply filter_ext. intros l.
    rewrite is_skipped_blank_or_header. reflexivity.
  - intros l. rewrite <- is_skipped_blank_or_header. unfold is_skipped.
    destruct (classify l); split; intros H; try reflexivity; discriminate H.
Qed.

(** [skipped_lines_are_inert] on a text whose header lines hold a part and
    a quantity, with a blank line of spaces between. *)
Lemma skipped_lines_are_inert_witness :
  extract_lines ["Subject: need XY-999"; "   "; "AB-100"; "ship to: 5 EA";
                 "QTY: 2"]
  = [Item "AB-100" 2]
  /\ classify "  to: PN AB-100 qty 7" = Skipped.
Proof.
  destruct (skipped_lines_are_inert
              ["Subject: need XY-999"; "   "; "AB-100"; "ship to: 5 EA";
               "QTY: 2"]) as [He Hc].
  split.
  - rewrite <- He. vm_compute. reflexivity.
  - apply Hc. vm_compute. reflexivity.
Defined.

(** X4.  Every part that the text scanner emits has at least three
    characters, and none of them is one of the letters a to z (codes 97 to
    122). *)
Theorem emitted_part_is_normalised (text : string) (it : item) :
  In it (extract_data_from_text text) ->
  (3 <= String.length (part it))%nat
  /\ PyStr.any_char (PyStr.in_range 97 122) (part it) = false.
Proof.
  intros Hin. destruct (emitted_part_line _ _ Hin) as (line & _ & [H|H]).
  - exact (explicit_part_normal _ _ H).
  - exact (implicit_part_normal _ _ H).
Qed.

(** [emitted_part_is_normalised] on a line in lower case: the part comes
    out as AB-100. *)
Lemma emitted_part_is_normalised_witness :
  let items := extract_data_from_text "please send ab-100, x1" in
  In (Item "AB-100" 1) items
  /\ (3 <= String.length "AB-100")%nat
  /\ PyStr.any_char (PyStr.in_range 97 122) "AB-100" = false.
Proof.
  assert (Hin : In (Item "AB-100" 1)
                  (extract_data_from_text "please send ab-100, x1"))
    by (vm_compute; left; reflexivity).
  split; [exact Hin|].
  exact (emitted_part_is_normalised _ _ Hin).
Defined.

(** X5.  An emitted part that no part label introduced on its line
    contains a digit. *)
Theorem unlabelled_part_has_digit (text : string) (it : item) :
  In it (extract_data_from_text text) ->
  (forall line, In line (PyStr.splitlines text) ->
                ~ In (part it) (explicit_parts (PyStr.strip line))) ->
  PyStr.any_char PyStr.is_digit (part it) = true.
Proof.
  intros Hin Hno. destruct (emitted_part_line _ _ Hin) as (line & Hl & [H|H]).
  - destruct (Hno line Hl H).
  - exact (implicit_part_digit _ _ H).
Qed.

(** [unlabelled_part_has_digit] on a line without a label. *)
Lemma unlabelled_part_has_digit_witness :
  PyStr.any_char PyStr.is_digit "AB-100" = true.
Proof.
  apply (unlabelled_part_has_digit "please send ab-100, x1" (Item "AB-100" 1)).
  - vm_compute. left. reflexivity.
  - intros line [<-|[]]. vm_compute. intros [].
Defined.

(** ** The text scanner: the ignore set and the labelled parts *)

Section Token_facts.

Lemma ignore_token_has_no_digit t :
  t ∈ ignore_tokens -> PyStr.any_char PyStr.is_digit t = false.
Proof.
  unfold ignore_tokens. rewrite elem_of_list_to_set, list_elem_of_In.
  intros H.
  repeat (destruct H as [<-|H]; [vm_compute; reflexivity|]).
  destruct H.
Qed.

Variable icase : bool.
Variable q : ascii -> bool.

(** A match of a pattern whose groups range over [q] only adds captures
    over [q]. *)
Lemma run_class_groups r : class_groups icase q r ->
  forall A s cs (k : string -> Regex.captures -> option A) x,
  Regex.run icase r s cs k = Some x -> class_captures q cs ->
  exists s' cs', k s' cs' = Some x /\ class_captures q cs'.
Proof.
  induction r as [l | p | p lo hi | r1 IH1 r2 IH2 | r1 IH1 r2 IH2 | n r1 IH1 | ];
    intros Hg A s cs k x H Hcs; simpl in H.
  - destruct (Regex.lit_match icase l s); [eauto|discriminate].
  - destruct s as [|c s]; [discriminate|].
    destruct (Regex.cls_ok icase p c); [eauto|discriminate].
  - apply rep_match_split in H. destruct H as (_ & s' & _ & _ & Hk). eauto.
  - destruct Hg as [Hg1 Hg2].
    destruct (IH1 Hg1 _ _ _ _ _ H Hcs) as (s1 & cs1 & H1 & Hcs1). eauto.
  - destruct Hg as [Hg1 Hg2].
    destruct (Regex.run icase r1 s cs k) as [y|] eqn:R1.
    + injection H as ->. eauto.
    + eauto.
  - destruct r1 as [ | | p lo hi | | | | ]; try contradiction.
    simpl in H, Hg. apply rep_match_split in H.
    destruct H as (pre & s' & -> & Hp & Hk).
    rewrite consumed_app in Hk. exists s'. eexists. split; [exact Hk|].
    apply List.Forall_cons; [|exact Hcs]. simpl.
    revert Hp. apply all_char_impl, Hg.
  - destruct (PyStr.is_empty s || String.eqb s LF); [eauto|discriminate].
Qed.

Lemma group_class_captures n cs g :
  class_captures q cs -> Regex.group n cs = Some g ->
  PyStr.all_char q g = true.
Proof.
  induction 1 as [|[k s] cs Hs Hcs IH]; simpl; [discriminate|].
  destruct (Nat.eqb k n); [intros [= <-]; exact Hs|exact IH].
Qed.

(** Every string that [findall] returns is over [q]. *)
Lemma findall_class_groups r : class_groups icase q r ->
  forall s skip g, In g (Regex.findall_go icase r s skip) ->
                   PyStr.all_char q g = true.
Proof.
  intros Hg. induction s as [|c s IH]; intros skip g; simpl.
  - destruct skip; [|intros []].
    destruct (Regex.match_at icase r EmptyString) as [[rest cs]|] eqn:M;
      [|intros []].
    intros [<-|[]]. unfold Regex.match_at in M.
    destruct (run_class_groups r Hg _ _ _ _ _ M (List.Forall_nil _))
      as (s' & cs' & [= -> ->] & Hcs).
    destruct (Regex.group 1 cs) as [g|] eqn:G; simpl; [|reflexivity].
    exact (group_class_captures _ _ _ Hcs G).
  - destruct skip; [|apply IH].
    destruct (Regex.match_at icase r (String c s)) as [[rest cs]|] eqn:M;
      [|apply IH].
    intros [<-|Hin]; [|exact (IH _ _ Hin)]. unfold Regex.match_at in M.
    destruct (run_class_groups r Hg _ _ _ _ _ M (List.Forall_nil _))
      as (s' & cs' & [= -> ->] & Hcs).
    destruct (Regex.group 1 cs) as [g|] eqn:G; simpl; [|reflexivity].
    exact (group_class_captures _ _ _ Hcs G).
Qed.

End Token_facts.

Section Label_facts.

Lemma part_char_upper c :
  Regex.cls_ok true part_char c = true ->
  part_char (PyStr.upper_char c) = true.
Proof. destruct c as [[] [] [] [] [] [] [] []]; vm_compute; congruence. Qed.

Lemma all_char_upper (p : ascii -> bool) s :
  PyStr.all_char (fun c => p (PyStr.upper_char c)) s = true ->
  PyStr.all_char p (PyStr.upper s) = true.
Proof.
  induction s as [|c s IH]; simpl; [reflexivity|].
  intros H. apply andb_prop in H. destruct H as [Hc Hs].
  rewrite Hc, (IH Hs). reflexivity.
Qed.

Lemma all_char_lstrip (p q : ascii -> bool) s :
  PyStr.all_char p s = true -> PyStr.all_char p (PyStr.lstrip q s) = true.
Proof.
  induction s as [|c s IH]; simpl; [reflexivity|].
  intros H. destruct (q c); [|exact H].
  apply andb_prop in H. apply IH, H.
Qed.

Lemma all_char_rstrip (p q : ascii -> bool) s :
  PyStr.all_char p s = true -> PyStr.all_char p (PyStr.rstrip q s) = true.
Proof.
  induction s as [|c s IH]; simpl; [reflexivity|].
  intros H. apply andb_prop in H. destruct H as [Hc Hs].
  destruct (PyStr.is_empty (PyStr.rstrip q s) && q c); [reflexivity|].
  simpl. rewrite Hc, (IH Hs). reflexivity.
Qed.

Lemma explicit_regex_class_groups :
  class_groups true (fun c => part_char (PyStr.upper_char c))
    explicit_part_regex.
Proof. simpl. repeat split. exact part_char_upper. Qed.

End Label_facts.

(** X6.  The ignore set never changes the word scan: each of its tokens
    is without a digit, so the digit test has refused the token before the
    set is consulted. *)
Theorem ignore_set_is_redundant :
  (forall t, t ∈ ignore_tokens -> PyStr.any_char PyStr.is_digit t = false)
  /\ (forall t, keep_token t = keep_token_without_ignore t)
  /\ (forall clean_line,
        implicit_parts clean_line
        = List.filter keep_token_without_ignore
            (List.map clean_token (PyStr.split clean_line))).
Proof.
  assert (K : forall t, keep_token t = keep_token_without_ignore t).
  { intros t. unfold keep_token, keep_token_without_ignore.
    destruct (bool_decide (t ∈ ignore_tokens)) eqn:B.
    - apply bool_decide_eq_true in B.
      rewrite (ignore_token_has_no_digit _ B).
      destruct (negb (String.length t <? 3)%nat); reflexivity.
    - simpl. rewrite andb_true_r. reflexivity. }
  split; [exact ignore_token_has_no_digit|]. split; [exact K|].
  intros clean_line. unfold implicit_parts.
  apply List.filter_ext. exact K.
Qed.

(** [ignore_set_is_redundant] for the token BOLT. *)
Lemma ignore_set_is_redundant_witness :
  PyStr.any_char PyStr.is_digit "BOLT" = false.
Proof.
  apply (proj1 ignore_set_is_redundant "BOLT"). vm_compute. reflexivity.
Defined.

(** X7.  On a line of 7-bit ASCII characters, a part that a label
    introduced is made of the letters A to Z (codes 65 to 90), the digits
    0 to 9 (codes 48 to 57), the hyphen and the dot only, and has at least
    three characters. *)
Theorem labelled_part_alphabet (clean_line p : string) :
  ascii_text clean_line = true ->
  In p (explicit_parts clean_line) ->
  PyStr.all_char
    (fun c => PyStr.in_range 65 90 c || PyStr.in_range 48 57 c
              || Ascii.eqb c "-"%char || Ascii.eqb c "."%char) p = true
  /\ (3 <= String.length p)%nat.
Proof.
  intros _ Hin. split; [|exact (proj1 (explicit_part_normal _ _ Hin))].
  change (PyStr.all_char part_char p = true).
  unfold explicit_parts in Hin. rewrite filter_In, in_map_iff in Hin.
  destruct Hin as [(g & <- & Hg) _].
  unfold PyStr.strip_chars, PyStr.strip_with.
  apply all_char_rstrip, all_char_lstrip, all_char_upper.
  exact (findall_class_groups _ _ _ explicit_regex_class_groups _ _ _ Hg).
Qed.

(** [labelled_part_alphabet] on a labelled part in lower case, followed
    by a comma. *)
Lemma labelled_part_alphabet_witness :
  ascii_text "alt: ab.1-x, urgent" = true
  /\ In "AB.1-X" (explicit_parts "alt: ab.1-x, urgent")
  /\ PyStr.all_char
       (fun c => PyStr.in_range 65 90 c || PyStr.in_range 48 57 c
                 || Ascii.eqb c "-"%char || Ascii.eqb c "."%char) "AB.1-X"
     = true
  /\ (3 <= String.length "AB.1-X")%nat.
Proof.
  assert (Ha : ascii_text "alt: ab.1-x, urgent" = true)
    by (vm_compute; reflexivity).
  assert (Hin : In "AB.1-X" (explicit_parts "alt: ab.1-x, urgent"))
    by (vm_compute; left; reflexivity).
  split; [exact Ha|]. split; [exact Hin|].
  exact (labelled_part_alphabet _ _ Ha Hin).
Defined.

(** ** Normal form of part numbers *)

Section Normal_form_facts.

Lemma is_space_upper c : PyStr.is_space (PyStr.upper_char c) = PyStr.is_space c.
Proof. destruct c as [[] [] [] [] [] [] [] []]; vm_compute; reflexivity. Qed.

Lemma upper_char_idem c :
  PyStr.upper_char (PyStr.upper_char c) = PyStr.upper_char c.
Proof. destruct c as [[] [] [] [] [] [] [] []]; vm_compute; reflexivity. Qed.

Lemma upper_idem s : PyStr.upper (PyStr.upper s) = PyStr.upper s.
Proof.
  induction s as [|c s IH]; simpl; [reflexivity|].
  rewrite upper_char_idem, IH. reflexivity.
Qed.

Lemma is_empty_upper s : PyStr.is_empty (PyStr.upper s) = PyStr.is_empty s.
Proof. destruct s; reflexivity. Qed.

Lemma lstrip_upper s :
  PyStr.lstrip PyStr.is_space (PyStr.upper s)
  = PyStr.upper (PyStr.lstrip PyStr.is_space s).
Proof.
  induction s as [|c s IH]; simpl; [reflexivity|].
  rewrite is_space_upper. destruct (PyStr.is_space c); [exact IH|reflexivity].
Qed.

Lemma rstrip_upper s :
  PyStr.rstrip PyStr.is_space (PyStr.upper s)
  = PyStr.upper (PyStr.rstrip PyStr.is_space s).
Proof.
  induction s as [|c s IH]; simpl; [reflexivity|].
  rewrite IH, is_empty_upper, is_space_upper.
  destruct (PyStr.is_empty _ && PyStr.is_space c); reflexivity.
Qed.

(** [s.upper().strip()] is [s.strip().upper()]. *)
Lemma strip_upper s :
  PyStr.strip (PyStr.upper s) = PyStr.upper (PyStr.strip s).
Proof.
  unfold PyStr.strip, PyStr.strip_with. rewrite lstrip_upper. apply rstrip_upper.
Qed.

Lemma rstrip_idem p s : PyStr.rstrip p (PyStr.rstrip p s) = PyStr.rstrip p s.
Proof.
  induction s as [|c s IH]; simpl; [reflexivity|].
  destruct (PyStr.is_empty (PyStr.rstrip p s) && p c) eqn:E; [reflexivity|].
  simpl. rewrite IH, E. reflexivity.
Qed.

Lemma lstrip_head p s :
  match PyStr.lstrip p s with
  | EmptyString => True
  | String c _ => p c = false
  end.
Proof.
  induction s as [|c s IH]; simpl; [exact I|].
  destruct (p c) eqn:E; [exact IH|exact E].
Qed.

Lemma lstrip_rstrip_lstrip p s :
  PyStr.lstrip p (PyStr.rstrip p (PyStr.lstrip p s))
  = PyStr.rstrip p (PyStr.lstrip p s).
Proof.
  pose proof (lstrip_head p s) as H.
  destruct (PyStr.lstrip p s) as [|c t]; [reflexivity|].
  simpl. rewrite H, andb_false_r. simpl. rewrite H. reflexivity.
Qed.

Lemma strip_with_idem p s :
  PyStr.strip_with p (PyStr.strip_with p s) = PyStr.strip_with p s.
Proof.
  unfold PyStr.strip_with. rewrite lstrip_rstrip_lstrip. apply rstrip_idem.
Qed.

(** Normalising twice is normalising once. *)
Lemma normal_form_idem s :
  PyStr.upper (PyStr.strip (PyStr.upper (PyStr.strip s)))
  = PyStr.upper (PyStr.strip s).
Proof.
  rewrite strip_upper, upper_idem. unfold PyStr.strip.
  rewrite strip_with_idem. reflexivity.
Qed.

End Normal_form_facts.

(** ** Tables *)

Section Table_facts.

Lemma row_items_length df part_col qty_col row :
  (length (row_items df part_col qty_col row) <= 1)%nat.
Proof.
  unfold row_items. destruct (_ && _); simpl; lia.
Qed.

Lemma flat_map_length_le {A B} (f : A -> list B) (l : list A) :
  (forall x, (length (f x) <= 1)%nat) ->
  (length (flat_map f l) <= length l)%nat.
Proof.
  intros H. induction l as [|x l IH]; simpl; [lia|].
  rewrite length_app. specialize (H x). lia.
Qed.

Lemma first_keyword_app m keywords1 keywords2 :
  first_keyword m (keywords1 ++ keywords2) =
  match first_keyword m keywords1 with
  | Some c => Some c
  | None => first_keyword m keywords2
  end.
Proof.
  induction keywords1 as [|kw keywords1 IH]; simpl; [reflexivity|].
  destruct (m !! kw); [reflexivity|exact IH].
Qed.

(** In the dict of columns a later column replaces an earlier one. *)
Lemma column_fold_last post : forall (m : gmap string cell) (c : cell),
  (forall c', In c' post -> normalize_label c' <> normalize_label c) ->
  m !! normalize_label c = Some c ->
  fold_left (fun m c => <[normalize_label c := c]> m) post m
    !! normalize_label c = Some c.
Proof.
  induction post as [|c0 post IH]; intros m c Hpost Hm; simpl; [exact Hm|].
  apply IH.
  - intros c' Hc'. apply Hpost. right. exact Hc'.
  - rewrite lookup_insert_ne; [exact Hm|]. apply Hpost. left. reflexivity.
Qed.

Lemma column_map_last pre c post :
  (forall c', In c' post -> normalize_label c' <> normalize_label c) ->
  column_map (pre ++ c :: post) !! normalize_label c = Some c.
Proof.
  intros Hpost. unfold column_map. rewrite fold_left_app. simpl.
  apply column_fold_last; [exact Hpost|]. apply lookup_insert_eq.
Qed.

End Table_facts.

(** X8.  A table yields at most one item per row, and the part of each
    item is a normalised cell: not empty, not NAN, and unchanged when it
    is trimmed and upper-cased again. *)
Theorem table_items_shape (df : dataframe) (part_col : cell)
    (qty_col : option cell) :
  (length (table_items df part_col qty_col) <= length (rows df))%nat
  /\ (forall it, In it (table_items df part_col qty_col) ->
        part it <> EmptyString
        /\ part it <> "NAN"
        /\ PyStr.upper (PyStr.strip (part it)) = part it).
Proof.
  split.
  - apply flat_map_length_le. intros row. apply row_items_length.
  - intros it Hin. unfold table_items in Hin. rewrite in_flat_map in Hin.
    destruct Hin as (row & _ & Hit). unfold row_items in Hit.
    set (p := PyStr.upper (PyStr.strip (py_str (row_get (columns df) row part_col))))
      in Hit.
    destruct (negb (PyStr.is_empty p) && negb (String.eqb p "NAN")) eqn:E;
      [|destruct Hit].
    destruct Hit as [<-|[]]. simpl.
    apply andb_prop in E. destruct E as [E1 E2].
    apply negb_true_iff in E1, E2. apply String.eqb_neq in E2.
    split; [intros Hp; rewrite Hp in E1; discriminate|].
    split; [exact E2|]. unfold p. apply normal_form_idem.
Qed.

(** [table_items_shape] on a sheet with a padded part in lower case. *)
Lemma table_items_shape_witness :
  PyStr.upper (PyStr.strip "XY-200") = "XY-200".
Proof.
  apply (proj2 (table_items_shape
                  (DataFrame [CStr "PN"] [[CStr "  xy-200 "]; [CNaN]])
                  (CStr "PN") None) (Item "XY-200" 1)).
  vm_compute. left. reflexivity.
Defined.

(** X9.  When several columns have the same upper-cased and trimmed name,
    the keyword that names them resolves to the last of them. *)
Theorem duplicate_column_last_wins (df : dataframe) (pre post : list cell)
    (c : cell) (kpre kpost : list string) :
  columns df = pre ++ c :: post ->
  (forall c', In c' post -> normalize_label c' <> normalize_label c) ->
  unresolved df kpre ->
  find_column_by_name df (kpre ++ normalize_label c :: kpost) = Some c.
Proof.
  intros Hcols Hpost Hun. unfold find_column_by_name.
  rewrite first_keyword_app.
  apply find_column_none in Hun. unfold find_column_by_name in Hun.
  rewrite Hun. simpl. rewrite Hcols, (column_map_last _ _ _ Hpost).
  reflexivity.
Qed.

(** [duplicate_column_last_wins] on a sheet with the columns "pn" and
    "PN ". *)
Lemma duplicate_column_last_wins_witness :
  find_column_by_name
    (DataFrame [CStr "pn"; CStr "Qty"; CStr "PN "] [])
    (["P/N"] ++ normalize_label (CStr "PN ") :: ["PART"])
  = Some (CStr "PN ").
Proof.
  apply (duplicate_column_last_wins _ [CStr "pn"; CStr "Qty"] []).
  - reflexivity.
  - intros c' [].
  - intros c' [<-|[<-|[<-|[]]]]; vm_compute; intuition discriminate.
Defined.

(** X10.  The keyword lists of the HTML branch begin the lists of the
    attachment branch: a table whose header resolves a part-number column
    as an HTML table resolves the same column as a spreadsheet, and when
    its quantity column resolves too, or resolves in neither branch, both
    branches read the same items from it. *)
Theorem html_header_agrees_with_excel (df : dataframe) (pc : cell) :
  find_column_by_name df HTML_PART_KEYWORDS = Some pc ->
  find_column_by_name df EXCEL_PART_KEYWORDS = Some pc
  /\ (find_column_by_name df HTML_QTY_KEYWORDS <> None
      \/ find_column_by_name df EXCEL_QTY_KEYWORDS = None ->
      html_extract df = excel_extract df).
Proof.
  intros Hp.
  assert (Ep : find_column_by_name df EXCEL_PART_KEYWORDS = Some pc).
  { unfold find_column_by_name in *.
    change EXCEL_PART_KEYWORDS with (HTML_PART_KEYWORDS ++ ["ITEM"]).
    rewrite first_keyword_app, Hp. reflexivity. }
  split; [exact Ep|]. intros Hq.
  assert (Eq : find_column_by_name df EXCEL_QTY_KEYWORDS
               = find_column_by_name df HTML_QTY_KEYWORDS).
  { unfold find_column_by_name in *.
    change EXCEL_QTY_KEYWORDS with (HTML_QTY_KEYWORDS ++ ["REQ"; "QTY REQ"]).
    rewrite first_keyword_app.
    destruct (first_keyword (column_map (columns df)) HTML_QTY_KEYWORDS)
      as [qc|] eqn:H; [reflexivity|].
    destruct Hq as [Hq|Hq]; [destruct Hq; reflexivity|].
    change EXCEL_QTY_KEYWORDS with (HTML_QTY_KEYWORDS ++ ["REQ"; "QTY REQ"])
      in Hq.
    rewrite first_keyword_app, H in Hq. exact Hq. }
  unfold html_extract, excel_extract. rewrite Hp, Ep, Eq. reflexivity.
Qed.

(** [html_header_agrees_with_excel] on a table with the columns
    "Part Number" and "Qty". *)
Lemma html_header_agrees_with_excel_witness :
  find_column_by_name sheet_parts EXCEL_PART_KEYWORDS = Some (CStr "Part Number")
  /\ html_extract sheet_parts = excel_extract sheet_parts.
Proof.
  destruct (html_header_agrees_with_excel sheet_parts (CStr "Part Number"))
    as [Hp Hq]; [vm_compute; reflexivity|].
  split; [exact Hp|]. apply Hq. left. vm_compute. discriminate.
Defined.

(** ** The matcher: the rows of the report *)

Section Result_facts.

Implicit Types (df : list inventory_record) (it : item) (row : inventory_record).

Lemma prefix_refl (s : string) : String.prefix s s = true.
Proof.
  induction s as [|c s IH]; simpl; [reflexivity|].
  destruct (ascii_dec c c); [exact IH|contradiction].
Qed.

Lemma prefix_app (s t : string) : String.prefix s (s +:+ t) = true.
Proof.
  induction s as [|c s IH]; simpl; [destruct t; reflexivity|].
  destruct (ascii_dec c c); [exact IH|contradiction].
Qed.

Lemma filter_nil_inv {A} (f : A -> bool) (l : list A) :
  List.filter f l = [] -> forall y, In y l -> f y = false.
Proof.
  induction l as [|x l IH]; simpl; [intros _ y []|].
  destruct (f x) eqn:E; [discriminate|].
  intros H y [<-|Hy]; [exact E|exact (IH H y Hy)].
Qed.

Lemma classify_stock_req p req row :
  r_req_qty (classify_stock p req row) = req.
Proof.
  unfold classify_stock.
  destruct (stock_of row =? 0); [reflexivity|].
  destruct (stock_of row >=? req); reflexivity.
Qed.

Lemma reconcile_item_req df it :
  r_req_qty (reconcile_item df it) = req_qty it.
Proof.
  destruct (found_or_not df (part it)) as [Hn|[row Hf]].
  - rewrite (reconcile_item_not_found _ _ Hn). reflexivity.
  - destruct (reconcile_item_found df it row Hf) as [label E].
    rewrite E. apply classify_stock_req.
Qed.

(** The displayed part is the requested part, alone or annotated. *)
Lemma reconcile_item_label df it :
  r_part (reconcile_item df it) = part it
  \/ exists row, In row df
       /\ r_part (reconcile_item df it)
          = part it +:+ " (Matched: " +:+ part_number row +:+ ")".
Proof.
  unfold reconcile_item.
  destruct (exact_matches df (part it)) as [|r m] eqn:E.
  - destruct (prefix_matches df (part it)) as [|r m] eqn:P.
    + left. reflexivity.
    + right. exists r. split.
      * assert (Hin : In r (prefix_matches df (part it)))
          by (rewrite P; left; reflexivity).
        unfold prefix_matches in Hin. apply filter_In in Hin. apply Hin.
      * apply classify_stock_part.
  - left. apply classify_stock_part.
Qed.

Lemma condition_of_not_na row : isna (condition_of row) = false.
Proof.
  unfold condition_of.
  destruct (isna (default NA (condition row))) eqn:E; [reflexivity|exact E].
Qed.

Lemma classify_stock_not_missing p req row :
  r_status (classify_stock p req row) <> MISSING.
Proof.
  unfold classify_stock.
  destruct (stock_of row =? 0); [discriminate|].
  destruct (stock_of row >=? req); discriminate.
Qed.

Lemma not_found_iff df p :
  not_found df p <->
  forall r, In r df -> PyStr.startswith p (part_number r) = false.
Proof.
  unfold not_found, exact_matches, prefix_matches. split.
  - intros [_ Hp]. exact (filter_nil_inv _ _ Hp).
  - intros H. split; apply filter_none; [|exact H].
    intros r Hr. destruct (String.eqb_spec (part_number r) p) as [E|]; [|reflexivity].
    specialize (H r Hr). rewrite E in H. unfold PyStr.startswith in H.
    rewrite prefix_refl in H. discriminate.
Qed.

End Result_facts.

(** X11.  The matcher returns one result per item, in order; each result
    carries the requested quantity of its item, and its displayed part
    begins with the requested part. *)
Theorem reconcile_is_itemwise (items : list item) (df : list inventory_record) :
  length (reconcile items df) = length items
  /\ List.map r_req_qty (reconcile items df) = List.map req_qty items
  /\ Forall2 (fun it res => PyStr.startswith (part it) (r_part res) = true)
       items (reconcile items df).
Proof.
  unfold reconcile. split; [apply length_map|]. split.
  - rewrite List.map_map. apply List.map_ext. intros it.
    apply reconcile_item_req.
  - induction items as [|it items IH]; simpl; constructor; [|exact IH].
    unfold PyStr.startswith.
    destruct (reconcile_item_label df it) as [->|(row & _ & ->)].
    + apply prefix_refl.
    + apply prefix_app.
Qed.

(** X12.  An exact match goes before a prefix match: when a record
    carries the requested part exactly, the first such record is used and
    the part is displayed without annotation, even when a record whose part
    number only begins with the requested part stands earlier. *)
Theorem exact_match_first (df pre post : list inventory_record)
    (row : inventory_record) (it : item) :
  df = pre ++ row :: post ->
  (forall r, In r pre -> part_number r <> part it) ->
  part_number row = part it ->
  reconcile_item df it = classify_stock (part it) (req_qty it) row.
Proof.
  intros Hdf Hpre Hrow.
  assert (E : exact_matches df (part it)
              = row :: exact_matches post (part it)).
  { rewrite Hdf. unfold exact_matches. apply filter_first.
    - intros r Hr. apply String.eqb_neq. auto.
    - apply String.eqb_eq. exact Hrow. }
  unfold reconcile_item. rewrite E. reflexivity.
Qed.

(** [exact_match_first] with AB12X9 before AB12 in the inventory. *)
Lemma exact_match_first_witness :
  reconcile_item
    [InventoryRecord "AB12X9" (Some (CInt 4)) None;
     InventoryRecord "AB12" (Some (CInt 7)) None] (Item "AB12" 2)
  = Result "AB12" IN_STOCK NA 2 7 5.
Proof.
  rewrite (exact_match_first _ [InventoryRecord "AB12X9" (Some (CInt 4)) None]
             [] (InventoryRecord "AB12" (Some (CInt 7)) None)).
  - vm_compute. reflexivity.
  - reflexivity.
  - intros r [<-|[]]. discriminate.
  - reflexivity.
Defined.

(** X13.  A part is reported MISSING exactly when no part number of the
    inventory begins with it. *)
Theorem missing_iff_no_prefix (df : list inventory_record) (it : item) :
  r_status (reconcile_item df it) = MISSING <->
  forall r, In r df -> PyStr.startswith (part it) (part_number r) = false.
Proof.
  rewrite <- not_found_iff. split.
  - intros H. destruct (found_or_not df (part it)) as [Hn|[row Hf]];
      [exact Hn|].
    destruct (reconcile_item_found df it row Hf) as [label E].
    rewrite E in H. destruct (classify_stock_not_missing _ _ _ H).
  - intros Hn. rewrite (reconcile_item_not_found _ _ Hn). reflexivity.
Qed.

(** X14.  Every result has one of four shapes, and its numbers agree with
    its status: "MISSING (Unknown Part)" with condition N/A, stock 0 and
    remaining 0; "OUT OF STOCK" with stock 0 and remaining 0; "IN STOCK"
    with a stock other than 0, at least the requested quantity, and
    remaining stock minus requested; "LOW STOCK (Have <stock>)" with its
    own stock figure in decimal, other than 0 and below the requested
    quantity, with remaining 0.  The condition shown is never a missing
    value. *)
Theorem result_is_consistent (df : list inventory_record) (it : item) :
  let res := reconcile_item df it in
  isna (r_condition res) = false
  /\ ((r_status res = "MISSING (Unknown Part)" /\ r_condition res = CStr "N/A"
       /\ r_stock_qty res = 0 /\ r_remaining res = 0)
      \/ (r_status res = "OUT OF STOCK"
          /\ r_stock_qty res = 0 /\ r_remaining res = 0)
      \/ (r_status res = "IN STOCK"
          /\ r_stock_qty res <> 0 /\ r_req_qty res <= r_stock_qty res
          /\ r_remaining res = r_stock_qty res - r_req_qty res)
      \/ (r_status res = "LOW STOCK (Have " +:+ pretty (r_stock_qty res) +:+ ")"
          /\ r_stock_qty res <> 0 /\ r_stock_qty res < r_req_qty res
          /\ r_remaining res = 0)).
Proof.
  cbv zeta. destruct (found_or_not df (part it)) as [Hn|[row Hf]].
  - rewrite (reconcile_item_not_found _ _ Hn). simpl.
    split; [reflexivity|]. left. auto.
  - destruct (reconcile_item_found df it row Hf) as [label E]. rewrite E.
    split; [rewrite classify_stock_condition; apply condition_of_not_na|].
    right. destruct (Z.eq_dec (stock_of row) 0) as [H0|Hnz].
    + left. rewrite (classify_stock_out _ _ _ H0). simpl. auto.
    + right. destruct (Z_lt_le_dec (stock_of row) (req_qty it)) as [Hlt|Hge].
      * right. rewrite (classify_stock_low _ _ _ Hnz Hlt).
        cbn [r_status r_stock_qty r_req_qty r_remaining]. auto.
      * left. rewrite (classify_stock_in _ _ _ Hnz Hge). simpl. auto.
Qed.

(** [result_is_consistent] for 3 requested against a stock of 2: of the
    four shapes only the last one has stock 2, so the label reads
    "LOW STOCK (Have 2)". *)
Lemma result_is_consistent_witness :
  r_status (reconcile_item (inv_ab100 2) (Item "AB-100" 3))
  = "LOW STOCK (Have 2)"
  /\ r_remaining (reconcile_item (inv_ab100 2) (Item "AB-100" 3)) = 0.
Proof.
  destruct (result_is_consistent (inv_ab100 2) (Item "AB-100" 3))
    as [_ [H|[H|[H|H]]]].
  - destruct H as (_ & _ & H & _). vm_compute in H. discriminate H.
  - destruct H as (_ & H & _). vm_compute in H. discriminate H.
  - destruct H as (_ & _ & H & _). vm_compute in H.
    exfalso. apply H. reflexivity.
  - destruct H as (Hs & _ & _ & Hr). split; [|exact Hr].
    rewrite Hs. vm_compute. reflexivity.
Defined.

(** ** The master parser: the temp directory *)

Section Temp_dir_facts.

Variable read_excel : string -> option dataframe.
Variable read_html : string -> option (list dataframe).
Variable get_text : string -> option string.

Lemma saved_frame (fs : temp_dir) a name :
  att_name a <> name -> saved fs a !! name = fs !! name.
Proof.
  intros Hne. unfold saved.
  destruct (att_saves a); [|reflexivity]. apply lookup_insert_ne, Hne.
Qed.

Lemma try_attachment_frame (fs : temp_dir) a name :
  att_name a <> name ->
  snd (try_attachment read_excel fs a) !! name = fs !! name.
Proof.
  intros Hne. unfold try_attachment.
  destruct (saved fs a !! att_name a ≫= read_excel) as [df|];
    [|exact (saved_frame _ _ _ Hne)].
  destruct (excel_extract df); simpl; [|exact (saved_frame _ _ _ Hne)].
  rewrite lookup_delete_ne by exact Hne. exact (saved_frame _ _ _ Hne).
Qed.

Lemma attachment_loop_frame atts name : forall fs : temp_dir,
  (forall a, In a atts -> is_spreadsheet_name (att_name a) = true ->
             att_name a <> name) ->
  snd (attachment_loop read_excel fs atts) !! name = fs !! name.
Proof.
  induction atts as [|a atts IH]; intros fs H; simpl; [reflexivity|].
  assert (Hrest : forall a', In a' atts ->
                    is_spreadsheet_name (att_name a') = true ->
                    att_name a' <> name).
  { intros a' Ha'. apply H. right. exact Ha'. }
  destruct (is_spreadsheet_name (att_name a)) eqn:Hs; [|exact (IH _ Hrest)].
  pose proof (try_attachment_frame fs a name
                (H a (or_introl eq_refl) Hs)) as Hf.
  destruct (try_attachment read_excel fs a) as [[r|] fs']; simpl in *.
  - exact Hf.
  - rewrite (IH _ Hrest). exact Hf.
Qed.

Lemma attachment_loop_success atts : forall (fs : temp_dir) extracted label fs',
  attachment_loop read_excel fs atts = (Some (extracted, label), fs') ->
  exists a, In a atts
    /\ is_spreadsheet_name (att_name a) = true
    /\ label = "Excel (" +:+ att_name a +:+ ")"
    /\ fs' !! att_name a = None.
Proof.
  induction atts as [|a atts IH]; intros fs extracted label fs' H; simpl in H;
    [discriminate|].
  destruct (is_spreadsheet_name (att_name a)) eqn:Hs.
  - destruct (try_attachment read_excel fs a) as [[r|] fs1] eqn:T.
    + injection H as -> ->. exists a. split; [left; reflexivity|].
      split; [exact Hs|].
      split; [|exact (try_attachment_removes _ _ _ _ _ T)].
      unfold try_attachment in T.
      destruct (saved fs a !! att_name a ≫= read_excel) as [df|];
        [|discriminate].
      destruct (excel_extract df); [|discriminate].
      injection T as _ <- _. reflexivity.
    + destruct (IH _ _ _ _ H) as (a' & Ha' & Hrest).
      exists a'. split; [right; exact Ha'|exact Hrest].
  - destruct (IH _ _ _ _ H) as (a' & Ha' & Hrest).
    exists a'. split; [right; exact Ha'|exact Hrest].
Qed.

End Temp_dir_facts.

(** X15.  The master parser leaves the temp directory as it is for a
    message without attachments, and never touches a file that is not
    named after a spreadsheet attachment of the message. *)
Theorem temp_dir_frame
    (read_excel : string -> option dataframe)
    (read_html : string -> option (list dataframe))
    (get_text : string -> option string)
    (fs : temp_dir) (msg : message) :
  let fs' := snd (extract_data_from_email read_excel read_html get_text fs msg) in
  (has_attachments msg = false -> fs' = fs)
  /\ (forall name,
        (forall a, In a (attachments msg) ->
                   is_spreadsheet_name (att_name a) = true ->
                   att_name a <> name) ->
        fs' !! name = fs !! name).
Proof.
  cbv zeta.
  assert (E : snd (extract_data_from_email read_excel read_html get_text fs msg)
              = snd (attachment_strategy read_excel fs msg)).
  { unfold extract_data_from_email.
    destruct (attachment_strategy read_excel fs msg) as [[r|] fs1];
      [reflexivity|].
    destruct (html_strategy read_html msg); reflexivity. }
  rewrite E. unfold attachment_strategy. split.
  - intros ->. reflexivity.
  - intros name H. destruct (has_attachments msg); [|reflexivity].
    apply attachment_loop_frame, H.
Qed.

(** [temp_dir_frame]: an older file of the temp directory survives a
    message whose attachments have other names. *)
Lemma temp_dir_frame_witness :
  snd (extract_data_from_email sample_read_excel sample_read_html
         sample_get_text (<["old.xlsx" := "parts"]> ∅) msg_two_sheets)
    !! "old.xlsx" = Some "parts".
Proof.
  rewrite (proj2 (temp_dir_frame sample_read_excel sample_read_html
                    sample_get_text (<["old.xlsx" := "parts"]> ∅)
                    msg_two_sheets) "old.xlsx").
  - reflexivity.
  - intros a [<-|[<-|[<-|[]]]] _; discriminate.
Defined.

(** X16.  When the attachment strategy returns, its label names a
    spreadsheet attachment of the message, and the temporary copy of that
    attachment is no longer in the temp directory. *)
Theorem attachment_result_is_cleaned
    (read_excel : string -> option dataframe)
    (fs fs' : temp_dir) (msg : message) (extracted : list item)
    (label : string) :
  attachment_strategy read_excel fs msg = (Some (extracted, label), fs') ->
  exists a, In a (attachments msg)
    /\ is_spreadsheet_name (att_name a) = true
    /\ label = "Excel (" +:+ att_name a +:+ ")"
    /\ fs' !! att_name a = None.
Proof.
  unfold attachment_strategy.
  destruct (has_attachments msg); [|discriminate].
  apply attachment_loop_success.
Qed.

(** [attachment_result_is_cleaned] on the message with two good sheets. *)
Lemma attachment_result_is_cleaned_witness :
  exists a, In a (attachments msg_two_sheets)
    /\ is_spreadsheet_name (att_name a) = true
    /\ "Excel (req.xlsx)" = "Excel (" +:+ att_name a +:+ ")"
    /\ (delete "req.xlsx"
          (<["req.xlsx" := "parts"]> (<["broken.xls" := "garbage"]> ∅))
        : temp_dir) !! att_name a = None.
Proof.
  apply (attachment_result_is_cleaned sample_read_excel ∅ _ msg_two_sheets
           [Item "XY-200" 10]).
  reflexivity.
Defined.

(** ** The report and the inbox loop *)

Section Report_facts.

Lemma str_contains_prefix sub s :
  String.prefix sub s = true -> str_contains sub s = true.
Proof. intros H. destruct s; cbn [str_contains]; rewrite H; reflexivity. Qed.

Lemma reconcile_item_status (df : list inventory_record) (it : item) :
  let res := reconcile_item df it in
  r_status res = MISSING \/ r_status res = OUT_OF_STOCK
  \/ r_status res = IN_STOCK \/ r_status res = LOW_STOCK (r_stock_qty res).
Proof.
  cbv zeta. destruct (found_or_not df (part it)) as [Hn|[row Hf]].
  - rewrite (reconcile_item_not_found _ _ Hn). left. reflexivity.
  - destruct (reconcile_item_found df it row Hf) as [label E]. rewrite E.
    unfold classify_stock.
    destruct (stock_of row =? 0); [right; left; reflexivity|].
    destruct (stock_of row >=? req_qty it); simpl; auto.
Qed.

Lemma bg_color_low have : bg_color (LOW_STOCK have) = "#ffe6e6".
Proof.
  unfold bg_color.
  assert (H : str_contains "LOW STOCK" (LOW_STOCK have) = true).
  { apply str_contains_prefix. reflexivity. }
  rewrite H, orb_true_r. reflexivity.
Qed.

Lemma font_weight_low have : font_weight (LOW_STOCK have) = "bold".
Proof. unfold font_weight. rewrite bg_color_low. reflexivity. Qed.

End Report_facts.

(** X17.  In the report, the row of a result is on the red background and
    in bold exactly when the status of the result is not IN STOCK; an
    IN STOCK row is white and of normal weight. *)
Theorem report_highlights_shortages (df : list inventory_record) (it : item) :
  let status := r_status (reconcile_item df it) in
  (status = IN_STOCK /\ bg_color status = "#ffffff"
   /\ font_weight status = "normal")
  \/ (status <> IN_STOCK /\ bg_color status = "#ffe6e6"
      /\ font_weight status = "bold").
Proof.
  cbv zeta.
  destruct (reconcile_item_status df it) as [H|[H|[H|H]]]; rewrite H.
  - right. split; [discriminate|]. split; vm_compute; reflexivity.
  - right. split; [discriminate|]. split; vm_compute; reflexivity.
  - left. split; [reflexivity|]. split; vm_compute; reflexivity.
  - right. split; [discriminate|].
    split; [apply bg_color_low|apply font_weight_low].
Qed.

Section Processing_facts.

Variable read_excel : string -> option dataframe.
Variable read_html : string -> option (list dataframe).
Variable get_text : string -> option string.
Variable TARGET_RECIPIENTS : list string.
Variable clock : message -> string.

Abbreviation handle :=
  (process_message read_excel read_html get_text TARGET_RECIPIENTS clock).
Abbreviation pass :=
  (process_inbox read_excel read_html get_text TARGET_RECIPIENTS clock).

(** A report is sent only at the end of the body, under the subject of
    an alert. *)
Lemma process_message_sent df fs im h fs' mail :
  handle df fs im = (h, fs') -> sent h = Some mail ->
  is_read im = false
  /\ str_contains "Inventory Alert" (subject (im_message im)) = false
  /\ str_contains "C CHECK" (subject (im_message im)) = true
  /\ mail_subject mail = "Inventory Alert: " +:+ subject (im_message im)
  /\ mail_to mail = TARGET_RECIPIENTS.
Proof.
  unfold process_message. intros H Hs.
  destruct (is_read im); [injection H as <- _; discriminate|].
  destruct (str_contains "Inventory Alert" _);
    [injection H as <- _; discriminate|].
  destruct (str_contains "C CHECK" _); simpl in H;
    [|injection H as <- _; discriminate].
  destruct (extract_data_from_email _ _ _ _ _) as [[items method] fs1].
  destruct items as [|i items]; [injection H as <- _; discriminate|].
  destruct df as [inv|]; [|injection H as <- _; discriminate].
  injection H as <- _. simpl in Hs.
  destruct TARGET_RECIPIENTS as [|r rs] eqn:T; [discriminate|].
  injection Hs as <-. simpl. auto.
Qed.

Lemma process_message_alert df fs m :
  str_contains "Inventory Alert" (subject m) = true ->
  handle df fs (InboxMessage m false) = (Handled true None, fs).
Proof.
  intros H. unfold process_message. simpl. rewrite H. reflexivity.
Qed.

Lemma process_inbox_cons df fs im rest :
  pass df fs (im :: rest)
  = (fst (handle df fs im)
       :: fst (pass df (snd (handle df fs im)) rest),
     snd (pass df (snd (handle df fs im)) rest)).
Proof.
  simpl. destruct (handle df fs im) as [h fs1]. simpl.
  destruct (pass df fs1 rest) as [hs fs2]. reflexivity.
Qed.





End Processing_facts.

(** X18.  The loop does not answer its own reports: a report is sent
    under a subject that begins with "Inventory Alert: ", and an unread
    message with such a subject is marked as read without being parsed,
    with nothing sent and the temp directory untouched. *)
Theorem reports_are_not_reprocessed
    (read_excel : string -> option dataframe)
    (read_html : string -> option (list dataframe))
    (get_text : string -> option string)
    (TARGET_RECIPIENTS : list string) (clock : message -> string)
    (df : option (list inventory_record)) (fs fs' : temp_dir)
    (im : inbox_message) (h : handled) (mail : report_mail) :
  process_message read_excel read_html get_text TARGET_RECIPIENTS clock
    df fs im = (h, fs') ->
  sent h = Some mail ->
  forall df2 (fs2 : temp_dir) (reply : message),
    subject reply = mail_subject mail ->
    process_message read_excel read_html get_text TARGET_RECIPIENTS clock
      df2 fs2 (InboxMessage reply false)
    = (Handled true None, fs2).
Proof.
  intros P Hs df2 fs2 reply Hsub.
  destruct (process_message_sent _ _ _ _ _ _ _ _ _ _ _ P Hs)
    as (_ & _ & _ & Hm & _).
  apply process_message_alert. rewrite Hsub, Hm.
  apply str_contains_prefix.
  change ("Inventory Alert: " +:+ subject (im_message im))
    with ("Inventory Alert" +:+ (": " +:+ subject (im_message im))).
  apply prefix_app.
Qed.

(** X19.  What one turn of the loop does, by cases.  A report is sent
    exactly for an unread message whose subject holds "C CHECK" and not
    "Inventory Alert", in which items are found, when there is an
    inventory and a recipient.  The message is marked as read exactly when
    it is unread and is an alert, or holds "C CHECK" and either yields no
    item or meets an inventory; so a request that meets no inventory stays
    unread, and one that meets no recipient is marked as read with nothing
    sent.  A message that is read, or whose subject does not pass, leaves
    the temp directory as it is. *)
Theorem process_message_cases
    (read_excel : string -> option dataframe)
    (read_html : string -> option (list dataframe))
    (get_text : string -> option string)
    (TARGET_RECIPIENTS : list string) (clock : message -> string)
    (df : option (list inventory_record)) (fs : temp_dir)
    (im : inbox_message) :
  let out := process_message read_excel read_html get_text TARGET_RECIPIENTS
               clock df fs im in
  let subj := subject (im_message im) in
  let passes := negb (is_read im)
                && negb (str_contains "Inventory Alert" subj)
                && str_contains "C CHECK" subj in
  let items := items_of read_excel read_html get_text fs (im_message im) in
  (sent (fst out) <> None <->
     passes = true /\ items <> [] /\ df <> None /\ TARGET_RECIPIENTS <> [])
  /\ (marks_read (fst out) = true <->
        is_read im = false
        /\ (str_contains "Inventory Alert" subj = true
            \/ (str_contains "C CHECK" subj = true
                /\ (items = [] \/ df <> None))))
  /\ (passes = false -> snd out = fs).
Proof.
  cbv zeta. unfold process_message, items_of.
  destruct (is_read im); simpl.
  { split; [|split]; [| |reflexivity].
    - split; [intros H; destruct H; reflexivity|intros [H _]; discriminate].
    - split; [discriminate|intros [H _]; discriminate]. }
  destruct (str_contains "Inventory Alert" (subject (im_message im))); simpl.
  { split; [|split]; [| |reflexivity].
    - split; [intros H; destruct H; reflexivity|intros [H _]; discriminate].
    - split; [auto|reflexivity]. }
  destruct (str_contains "C CHECK" (subject (im_message im))); simpl.
  2:{ split; [|split]; [| |reflexivity].
      - split; [intros H; destruct H; reflexivity|intros [H _]; discriminate].
      - split; [discriminate|].
        intros [_ [H|[H _]]]; discriminate. }
  destruct (extract_data_from_email _ _ _ _ _) as [[items method] fs1]. simpl.
  destruct items as [|i items]; simpl.
  { split; [|split]; [| |discriminate].
    - split; [intros H; destruct H; reflexivity|].
      intros (_ & H & _). destruct H. reflexivity.
    - split; [auto|reflexivity]. }
  destruct df as [inv|]; simpl.
  2:{ split; [|split]; [| |discriminate].
      - split; [intros H; destruct H; reflexivity|].
        intros (_ & _ & H & _). destruct H. reflexivity.
      - split; [discriminate|].
        intros [_ [H|[_ [H|H]]]]; [discriminate|discriminate|].
        destruct H. reflexivity. }
  split; [|split]; [| |discriminate].
  - destruct TARGET_RECIPIENTS as [|r rs]; simpl.
    + split; [intros H; destruct H; reflexivity|].
      intros (_ & _ & _ & H). destruct H. reflexivity.
    + split; [|discriminate]. intros _. repeat split; discriminate.
  - split; [|reflexivity]. intros _. split; [reflexivity|].
    right. split; [reflexivity|]. right. discriminate.
Qed.


(** [reports_are_not_reprocessed]: the report on a request, come back to
    the inbox, is set aside. *)
Lemma reports_are_not_reprocessed_witness :
  process_message sample_read_excel sample_read_html sample_get_text
    sample_recipients sample_clock None ∅
    (InboxMessage
       (Message "Inventory Alert: RE: C CHECK tail 21" "P/N: AB-100" false [])
       false)
  = (Handled true None, ∅).
Proof.
  apply (reports_are_not_reprocessed sample_read_excel sample_read_html
           sample_get_text sample_recipients sample_clock
           (Some (inv_ab100 5)) ∅ ∅ (InboxMessage msg_request false)
           (Handled true (Some sample_mail)) sample_mail).
  - vm_compute. reflexivity.
  - reflexivity.
  - reflexivity.
Defined.

(** [process_message_cases]: a request that meets an inventory and a
    recipient is answered, and one that meets no inventory stays unread. *)
Lemma process_message_cases_witness :
  sent (fst (process_message sample_read_excel sample_read_html
               sample_get_text sample_recipients sample_clock
               (Some (inv_ab100 5)) ∅ (InboxMessage msg_request false)))
    <> None
  /\ marks_read (fst (process_message sample_read_excel sample_read_html
                        sample_get_text sample_recipients sample_clock
                        None ∅ (InboxMessage msg_request false)))
     <> true.
Proof.
  split.
  - apply (proj1 (process_message_cases sample_read_excel sample_read_html
                    sample_get_text sample_recipients sample_clock
                    (Some (inv_ab100 5)) ∅ (InboxMessage msg_request false))).
    split; [vm_compute; reflexivity|].
    split; [vm_compute; discriminate|]. split; discriminate.
  - intros H.
    apply (proj1 (proj2 (process_message_cases sample_read_excel
                           sample_read_html sample_get_text sample_recipients
                           sample_clock None ∅
                           (InboxMessage msg_request false)))) in H.
    destruct H as [_ [H|[_ [H|H]]]].
    + vm_compute in H. discriminate H.
    + vm_compute in H. discriminate H.
    + apply H. reflexivity.
Defined.


(** ** The inventory loader *)

Section Loader_facts.

Lemma first_index_some {A} (f : A -> bool) (l : list A) : forall i,
  first_index f l = Some i ->
  (exists x, l !! i = Some x /\ f x = true)
  /\ forall j y, (j < i)%nat -> l !! j = Some y -> f y = false.
Proof.
  induction l as [|x l IH]; intros i; simpl; [discriminate|].
  destruct (f x) eqn:E.
  - intros [= <-]. split; [exists x; auto|]. intros j y Hj. lia.
  - destruct (first_index f l) as [k|]; [|discriminate].
    intros [= <-]. destruct (IH k eq_refl) as [Hx Hbefore].
    split; [exact Hx|]. intros [|j] y Hj; simpl.
    + intros [= <-]. exact E.
    + apply Hbefore. lia.
Qed.

Lemma first_index_none {A} (f : A -> bool) (l : list A) :
  first_index f l = None <-> forall j y, l !! j = Some y -> f y = false.
Proof.
  induction l as [|x l IH]; simpl.
  - split; [intros _ j y; rewrite lookup_nil; discriminate|reflexivity].
  - destruct (f x) eqn:E.
    + split; [discriminate|]. intros H.
      rewrite (H 0%nat x eq_refl) in E. discriminate.
    + destruct (first_index f l) as [k|].
      * split; [discriminate|]. intros H.
        assert (X : Some k = None)
          by (apply IH; intros j y Hj; exact (H (S j) y Hj)).
        discriminate X.
      * split; [|reflexivity]. intros _ [|j] y; simpl.
        -- intros [= <-]. exact E.
        -- apply (proj1 IH eq_refl).
Qed.

Lemma row_get_row_set cs : forall row label v,
  In label cs -> row_get cs (row_set cs row label v) label = v.
Proof.
  induction cs as [|c cs IH]; intros row label v Hin; [destruct Hin|].
  simpl. destruct (decide (c = label)) as [E|E].
  - simpl. destruct (decide (c = label)); [reflexivity|contradiction].
  - simpl. destruct (decide (c = label)); [contradiction|].
    apply IH. destruct Hin as [H|H]; [contradiction|exact H].
Qed.

Lemma rename_label_part c :
  rename_label c = PART_NUMBER -> c = CStr "PartNumber" \/ c = PART_NUMBER.
Proof.
  unfold rename_label.
  destruct (decide (c = CStr "PartNumber")); [auto|].
  destruct (decide (c = CStr "Qty")); [discriminate|].
  destruct (decide (c = CStr "Condition")); [discriminate|auto].
Qed.

(** What [finish_inventory] returns, when it returns. *)
Lemma finish_inventory_some raw df :
  finish_inventory raw = Some df ->
  df = normalize_part_column (rename_columns raw)
  /\ In PART_NUMBER (columns (rename_columns raw)).
Proof.
  unfold finish_inventory. intros H.
  destruct (count_occ cell_eq_dec (columns (rename_columns raw)) PART_NUMBER)
    as [|[|n]] eqn:C; try discriminate.
  injection H as <-. split; [reflexivity|].
  apply (count_occ_In cell_eq_dec). lia.
Qed.

Lemma status_missing_not_found (df : list inventory_record) (it : item) :
  r_status (reconcile_item df it) = MISSING -> not_found df (part it).
Proof.
  intros H. destruct (found_or_not df (part it)) as [Hn|[row Hf]]; [exact Hn|].
  destruct (reconcile_item_found df it row Hf) as [label E].
  rewrite E in H. destruct (classify_stock_not_missing _ _ _ H).
Qed.

End Loader_facts.

(** X21.  The header scan returns the index of the first row, among the
    first ten, with a cell whose upper-cased text without blanks contains
    PARTNUMBER; it returns nothing exactly when none of the first ten rows
    has such a cell. *)
Theorem header_scan (df : dataframe) :
  (forall i, header_idx df = Some i ->
     (i < 10)%nat
     /\ (exists row, rows df !! i = Some row /\ is_header_row row = true)
     /\ forall j row, (j < i)%nat -> rows df !! j = Some row ->
                      is_header_row row = false)
  /\ (header_idx df = None <->
      forall j row, (j < 10)%nat -> rows df !! j = Some row ->
                    is_header_row row = false).
Proof.
  unfold header_idx. split.
  - intros i H. destruct (first_index_some _ _ _ H) as [(row & Hrow & Hf) Hb].
    apply lookup_take_Some in Hrow. destruct Hrow as [Hrow Hi].
    split; [exact Hi|]. split; [exists row; auto|].
    intros j row' Hj Hrow'. apply (Hb j row' Hj).
    apply lookup_take_Some. split; [exact Hrow'|lia].
  - rewrite first_index_none. split.
    + intros H j row Hj Hrow. apply (H j row).
      apply lookup_take_Some. auto.
    + intros H j row Hrow. apply lookup_take_Some in Hrow.
      destruct Hrow as [Hrow Hj]. exact (H j row Hj Hrow).
Qed.

(** [header_scan] on a sheet with one title row above the header. *)
Lemma header_scan_witness :
  (1 < 10)%nat
  /\ (exists row, rows ledger_with_banner !! 1%nat = Some row
                  /\ is_header_row row = true)
  /\ forall j row, (j < 1)%nat -> rows ledger_with_banner !! j = Some row ->
                   is_header_row row = false.
Proof.
  apply (proj1 (header_scan ledger_with_banner) 1%nat).
  vm_compute. reflexivity.
Defined.

(** X22.  A loaded inventory has exactly one column part_number, and the
    part number of each of its records is in normal form: trimming and
    upper-casing it again changes nothing. *)
Theorem loaded_part_numbers_are_normal
    (SP_FILE_PATH : string) (exists_in_data : string -> bool)
    (read_excel_sheet : string -> option string -> nat -> option dataframe)
    (read_csv : string -> option dataframe) (df : dataframe) :
  load_inventory SP_FILE_PATH exists_in_data read_excel_sheet read_csv
    = Some df ->
  count_occ cell_eq_dec (columns df) PART_NUMBER = 1%nat
  /\ forall r, In r (inventory_of df) ->
       PyStr.upper (PyStr.strip (part_number r)) = part_number r.
Proof.
  unfold load_inventory. intros H.
  destruct (target_file SP_FILE_PATH exists_in_data) as [target|];
    [|discriminate].
  simpl in H.
  destruct (read_table read_excel_sheet read_csv target) as [raw|];
    [|discriminate].
  simpl in H. pose proof (finish_inventory_some _ _ H) as [-> Hin]. split.
  - unfold finish_inventory in H.
    destruct (count_occ cell_eq_dec (columns (rename_columns raw)) PART_NUMBER)
      as [|[|n]] eqn:C; try discriminate. exact C.
  - intros r Hr. unfold inventory_of in Hr. simpl in Hr.
    rewrite List.map_map, in_map_iff in Hr. destruct Hr as (row & <- & _).
    simpl. rewrite (row_get_row_set _ _ _ _ Hin). simpl.
    apply normal_form_idem.
Qed.

(** [loaded_part_numbers_are_normal] on the sheet with a title row. *)
Lemma loaded_part_numbers_are_normal_witness :
  PyStr.upper (PyStr.strip "AB-100") = "AB-100".
Proof.
  apply (proj2 (loaded_part_numbers_are_normal "site/docs/stock.xlsx"
                  sample_exists sample_read_sheet (fun _ => None)
                  (normalize_part_column (rename_columns ledger_table))
                  ltac:(vm_compute; reflexivity))
           (InventoryRecord "AB-100" (Some (CInt 5)) (Some (CStr "NE")))).
  vm_compute. left. reflexivity.
Defined.

(** X23.  An inventory is loaded only from a table, the one read last,
    that has a column named exactly PartNumber or part_number; the loaded
    inventory has one record for each row of that table. *)
Theorem loaded_inventory_source
    (SP_FILE_PATH : string) (exists_in_data : string -> bool)
    (read_excel_sheet : string -> option string -> nat -> option dataframe)
    (read_csv : string -> option dataframe) (df : dataframe) :
  load_inventory SP_FILE_PATH exists_in_data read_excel_sheet read_csv
    = Some df ->
  exists target raw,
    target_file SP_FILE_PATH exists_in_data = Some target
    /\ read_table read_excel_sheet read_csv target = Some raw
    /\ (In (CStr "PartNumber") (columns raw)
        \/ In (CStr "part_number") (columns raw))
    /\ length (inventory_of df) = length (rows raw).
Proof.
  unfold load_inventory. intros H.
  destruct (target_file SP_FILE_PATH exists_in_data) as [target|];
    [|discriminate].
  simpl in H.
  destruct (read_table read_excel_sheet read_csv target) as [raw|] eqn:R;
    [|discriminate].
  simpl in H. pose proof (finish_inventory_some _ _ H) as [-> Hin].
  exists target, raw. split; [reflexivity|]. split; [exact R|]. split.
  - simpl in Hin. apply in_map_iff in Hin. destruct Hin as (c & Hc & Hin).
    destruct (rename_label_part _ Hc) as [->| ->]; auto.
  - unfold inventory_of. simpl. rewrite !length_map. reflexivity.
Qed.

(** [loaded_inventory_source] on the sheet with a title row. *)
Lemma loaded_inventory_source_witness :
  exists target raw,
    target_file "site/docs/stock.xlsx" sample_exists = Some target
    /\ read_table sample_read_sheet (fun _ => None) target = Some raw
    /\ (In (CStr "PartNumber") (columns raw)
        \/ In (CStr "part_number") (columns raw))
    /\ length (inventory_of
                 (normalize_part_column (rename_columns ledger_table)))
       = length (rows raw).
Proof.
  apply (loaded_inventory_source "site/docs/stock.xlsx" sample_exists
           sample_read_sheet (fun _ => None)).
  vm_compute. reflexivity.
Defined.

(** X24.  A part that stands in the part-number column of the table,
    in whatever case and with whatever blanks around it, is found in the
    inventory made of the table: an item that asks for its normal form is
    not reported MISSING. *)
Theorem listed_part_is_found (raw df : dataframe) (row : list cell) (it : item) :
  finish_inventory raw = Some df ->
  In row (rows raw) ->
  part it
  = PyStr.upper (PyStr.strip
      (py_str (row_get (columns (rename_columns raw)) row PART_NUMBER))) ->
  r_status (reconcile_item (inventory_of df) it) <> MISSING.
Proof.
  intros H Hrow Hpart Hm.
  pose proof (finish_inventory_some _ _ H) as [-> Hin].
  apply status_missing_not_found in Hm.
  pose proof (proj1 (not_found_iff _ _) Hm) as Hno. clear Hm.
  set (cs := columns (rename_columns raw)) in *.
  set (r := record_of cs
              (row_set cs row PART_NUMBER
                 (normalize_part (row_get cs row PART_NUMBER)))).
  assert (Hr : In r (inventory_of (normalize_part_column (rename_columns raw)))).
  { unfold inventory_of. simpl. rewrite List.map_map.
    apply in_map_iff. exists row. split; [reflexivity|exact Hrow]. }
  specialize (Hno r Hr).
  assert (E : part_number r = part it).
  { unfold r. simpl. rewrite (row_get_row_set _ _ _ _ Hin). simpl.
    symmetry. exact Hpart. }
  rewrite E in Hno. unfold PyStr.startswith in Hno.
  rewrite prefix_refl in Hno. discriminate.
Qed.

(** [listed_part_is_found]: the cell " ab-100 " answers a request for
    AB-100. *)
Lemma listed_part_is_found_witness :
  r_status (reconcile_item
              (inventory_of (normalize_part_column (rename_columns ledger_table)))
              (Item "AB-100" 2))
  <> MISSING.
Proof.
  apply (listed_part_is_found ledger_table _ [CStr " ab-100 "; CInt 5; CStr "NE"]).
  - reflexivity.
  - left. reflexivity.
  - vm_compute. reflexivity.
Defined.

(** ** The recipients *)

Section Recipient_facts.

Lemma split_on_go_length sep s : forall cur,
  length (split_on_go sep s cur) = S (count_char sep s).
Proof.
  induction s as [|c s IH]; intros cur; simpl; [reflexivity|].
  destruct (Ascii.eqb c sep); simpl; rewrite IH; reflexivity.
Qed.

Lemma any_char_snoc (p : ascii -> bool) s c :
  PyStr.any_char p (PyStr.snoc s c) = PyStr.any_char p s || p c.
Proof.
  unfold PyStr.snoc. induction s as [|d s IH]; simpl.
  - rewrite orb_false_r. reflexivity.
  - rewrite IH, orb_assoc. reflexivity.
Qed.

Lemma split_on_go_pieces sep s : forall cur e,
  PyStr.any_char (fun c => Ascii.eqb c sep) cur = false ->
  In e (split_on_go sep s cur) ->
  PyStr.any_char (fun c => Ascii.eqb c sep) e = false.
Proof.
  induction s as [|c s IH]; intros cur e Hcur; simpl.
  - intros [<-|[]]. exact Hcur.
  - destruct (Ascii.eqb c sep) eqn:E.
    + intros [<-|Hin]; [exact Hcur|]. exact (IH EmptyString e eq_refl Hin).
    + apply IH. rewrite any_char_snoc, Hcur, E. reflexivity.
Qed.

End Recipient_facts.

(** X25.  From a TARGET_EMAILS that is not empty, the recipient list has
    one entry more than the text has commas, so it is never empty, even
    when an entry is; each entry is trimmed and holds no comma. *)
Theorem recipients_of_nonempty (recipients_raw : string) :
  recipients_raw <> EmptyString ->
  length (target_recipients recipients_raw)
  = S (count_char ","%char recipients_raw)
  /\ forall e, In e (target_recipients recipients_raw) ->
       PyStr.strip e = e
       /\ PyStr.any_char (fun c => Ascii.eqb c ","%char) e = false.
Proof.
  intros Hne. unfold target_recipients.
  destruct recipients_raw as [|c raw]; [contradiction|]. cbn [PyStr.is_empty].
  split.
  - rewrite length_map. apply split_on_go_length.
  - intros e Hin. apply in_map_iff in Hin. destruct Hin as (x & <- & Hx).
    split; [apply strip_with_idem|].
    unfold PyStr.strip, PyStr.strip_with.
    apply any_char_rstrip, any_char_lstrip.
    exact (split_on_go_pieces ","%char (String c raw) EmptyString x
             eq_refl Hx).
Qed.

(** [recipients_of_nonempty] on two addresses and a trailing comma. *)
Lemma recipients_of_nonempty_witness :
  length (target_recipients "a@x.com, b@y.org,") = 3%nat.
Proof.
  rewrite (proj1 (recipients_of_nonempty "a@x.com, b@y.org," ltac:(discriminate))).
  reflexivity.
Defined.

(** ** One cycle, end to end *)

Section Cycle_facts.

Variable read_excel : string -> option dataframe.
Variable read_html : string -> option (list dataframe).
Variable get_text : string -> option string.
Variable TARGET_RECIPIENTS : list string.
Variable clock : message -> string.

Lemma process_message_no_inventory (fs : temp_dir) im :
  sent (fst (process_message read_excel read_html get_text TARGET_RECIPIENTS
               clock None fs im)) = None.
Proof.
  unfold process_message.
  destruct (is_read im); [reflexivity|].
  destruct (str_contains "Inventory Alert" _); [reflexivity|].
  destruct (negb (str_contains "C CHECK" _)); [reflexivity|].
  destruct (extract_data_from_email _ _ _ _ _) as [[items method] fs1].
  destruct items; reflexivity.
Qed.

Lemma process_inbox_no_inventory messages : forall (fs : temp_dir) h,
  In h (fst (process_inbox read_excel read_html get_text TARGET_RECIPIENTS
               clock None fs messages)) ->
  sent h = None.
Proof.
  induction messages as [|im rest IH]; intros fs h Hin; [destruct Hin|].
  rewrite process_inbox_cons in Hin. simpl in Hin.
  destruct Hin as [<-|Hin]; [apply process_message_no_inventory|].
  exact (IH _ _ Hin).
Qed.

Lemma excel_extract_items df extracted :
  excel_extract df = Some extracted ->
  exists pc qc, extracted = table_items df pc qc.
Proof.
  unfold excel_extract.
  destruct (find_column_by_name df EXCEL_PART_KEYWORDS) as [pc|];
    [|discriminate].
  intros [= <-]. eauto.
Qed.

Lemma html_extract_items df extracted :
  html_extract df = Some extracted ->
  exists df' pc qc, extracted = table_items df' pc qc.
Proof.
  unfold html_extract.
  destruct (find_column_by_name df HTML_PART_KEYWORDS) as [pc|].
  - intros [= <-]. eauto.
  - destruct (negb (df_empty df)); [|discriminate].
    destruct (find_column_by_name (promote_header df) HTML_PART_KEYWORDS)
      as [pc|]; [|discriminate].
    intros [= <-]. eauto.
Qed.

Lemma html_tables_items dfs extracted :
  html_tables dfs = Some extracted ->
  exists df' pc qc, extracted = table_items df' pc qc.
Proof.
  induction dfs as [|df dfs IH]; simpl; [discriminate|].
  destruct (html_extract df) as [e|] eqn:E; [|exact IH].
  intros [= <-]. exact (html_extract_items _ _ E).
Qed.

Lemma attachment_loop_items atts : forall (fs : temp_dir) extracted label fs',
  attachment_loop read_excel fs atts = (Some (extracted, label), fs') ->
  exists df pc qc, extracted = table_items df pc qc.
Proof.
  induction atts as [|a atts IH]; intros fs extracted label fs' H; simpl in H;
    [discriminate|].
  destruct (is_spreadsheet_name (att_name a)); [|exact (IH _ _ _ _ H)].
  destruct (try_attachment read_excel fs a) as [[r|] fs1] eqn:T;
    [|exact (IH _ _ _ _ H)].
  injection H as -> ->. unfold try_attachment in T.
  destruct (saved fs a !! att_name a ≫= read_excel) as [df|]; [|discriminate].
  destruct (excel_extract df) as [e|] eqn:E; [|discriminate].
  injection T as <- _ _. exists df. exact (excel_extract_items _ _ E).
Qed.

Lemma table_part_upper df pc qc it :
  In it (table_items df pc qc) ->
  part it <> EmptyString /\ PyStr.any_char PyStr.is_lower (part it) = false.
Proof.
  unfold table_items. rewrite in_flat_map. intros (row & _ & Hit).
  unfold row_items in Hit.
  set (p := PyStr.upper (PyStr.strip (py_str (row_get (columns df) row pc))))
    in Hit.
  destruct (negb (PyStr.is_empty p) && negb (String.eqb p "NAN")) eqn:E;
    [|destruct Hit].
  destruct Hit as [<-|[]]. simpl. apply andb_prop in E. destruct E as [E _].
  apply negb_true_iff in E. split.
  - intros Hp. rewrite Hp in E. discriminate.
  - apply upper_no_lower.
Qed.

End Cycle_facts.

(** X26.  Whatever strategy reads a message, the part of every item that
    the master parser returns is not empty, and none of its characters is
    one of the letters a to z (codes 97 to 122). *)
Theorem extracted_parts_are_upper_case
    (read_excel : string -> option dataframe)
    (read_html : string -> option (list dataframe))
    (get_text : string -> option string)
    (fs : temp_dir) (msg : message) (it : item) :
  In it (items_of read_excel read_html get_text fs msg) ->
  part it <> EmptyString
  /\ PyStr.any_char (PyStr.in_range 97 122) (part it) = false.
Proof.
  unfold items_of, extract_data_from_email.
  destruct (attachment_strategy read_excel fs msg) as [[[e l]|] fs1] eqn:A.
  - simpl. unfold attachment_strategy in A.
    destruct (has_attachments msg); [|discriminate].
    destruct (attachment_loop_items _ _ _ _ _ _ A) as (df & pc & qc & ->).
    apply table_part_upper.
  - destruct (html_strategy read_html msg) as [[e l]|] eqn:H.
    + simpl. unfold html_strategy in H.
      destruct (PyStr.is_empty (body msg)); [discriminate|].
      destruct (read_html (body msg) ≫= html_tables) as [e'|] eqn:T;
        [|discriminate].
      injection H as <- _.
      destruct (read_html (body msg)) as [dfs|]; [|discriminate].
      simpl in T.
      destruct (html_tables_items _ _ T) as (df & pc & qc & ->).
      apply table_part_upper.
    + simpl. intros Hin.
      destruct (emitted_part_line _ _ Hin) as (line & _ & [Hp|Hp]).
      * destruct (explicit_part_normal _ _ Hp) as [Hlen Hlow].
        split; [|exact Hlow]. intros E. rewrite E in Hlen. simpl in Hlen. lia.
      * destruct (implicit_part_normal _ _ Hp) as [Hlen Hlow].
        split; [|exact Hlow]. intros E. rewrite E in Hlen. simpl in Hlen. lia.
Qed.

(** [extracted_parts_are_upper_case] on the message with two sheets: the
    second sheet names the part in lower case. *)
Lemma extracted_parts_are_upper_case_witness :
  let items :=
    items_of sample_read_excel sample_read_html sample_get_text ∅
      msg_two_sheets in
  In (Item "XY-200" 10) items
  /\ "XY-200" <> EmptyString
  /\ PyStr.any_char (PyStr.in_range 97 122) "XY-200" = false.
Proof.
  assert (Hin : In (Item "XY-200" 10)
                  (items_of sample_read_excel sample_read_html sample_get_text
                     ∅ msg_two_sheets))
    by (vm_compute; left; reflexivity).
  split; [exact Hin|].
  exact (extracted_parts_are_upper_case _ _ _ _ _ _ Hin).
Defined.

(** X27.  A cycle sends a report only when the inventory was loaded, that
    is from a table with a column named exactly PartNumber or part_number;
    without authentication, without an inbox or without such a table it
    sends nothing. *)
Theorem reports_need_an_inventory
    (SP_FILE_PATH : string) (exists_in_data : string -> bool)
    (read_excel_sheet : string -> option string -> nat -> option dataframe)
    (read_csv : string -> option dataframe)
    (read_excel : string -> option dataframe)
    (read_html : string -> option (list dataframe))
    (get_text : string -> option string)
    (TARGET_RECIPIENTS : list string) (clock : message -> string)
    (authenticated : bool) (inbox : option (list inbox_message))
    (fs : temp_dir) (h : handled) (mail : report_mail) :
  In h (fst (process_emails SP_FILE_PATH exists_in_data read_excel_sheet
               read_csv read_excel read_html get_text TARGET_RECIPIENTS clock
               authenticated inbox fs)) ->
  sent h = Some mail ->
  authenticated = true
  /\ inbox <> None
  /\ exists target raw,
       target_file SP_FILE_PATH exists_in_data = Some target
       /\ read_table read_excel_sheet read_csv target = Some raw
       /\ (In (CStr "PartNumber") (columns raw)
           \/ In (CStr "part_number") (columns raw)).
Proof.
  unfold process_emails. intros Hin Hs.
  destruct authenticated; [|destruct Hin]. split; [reflexivity|].
  destruct inbox as [messages|]; [|destruct Hin]. split; [discriminate|].
  destruct (load_inventory SP_FILE_PATH exists_in_data read_excel_sheet
              read_csv) as [df|] eqn:L.
  - unfold load_inventory in L.
    destruct (target_file SP_FILE_PATH exists_in_data) as [target|];
      [|discriminate].
    simpl in L.
    destruct (read_table read_excel_sheet read_csv target) as [raw|] eqn:R;
      [|discriminate].
    simpl in L. pose proof (finish_inventory_some _ _ L) as [_ Hc].
    exists target, raw. split; [reflexivity|]. split; [exact R|].
    simpl in Hc. apply in_map_iff in Hc. destruct Hc as (c & Hc & Hc').
    destruct (rename_label_part _ Hc) as [->| ->]; auto.
  - simpl in Hin.
    rewrite (process_inbox_no_inventory _ _ _ _ _ _ _ _ Hin) in Hs.
    discriminate.
Qed.

(** [reports_need_an_inventory] on the sample inbox and the sheet with a
    title row. *)
Lemma reports_need_an_inventory_witness :
  true = true
  /\ Some sample_inbox <> None
  /\ exists target raw,
    target_file "site/docs/stock.xlsx" sample_exists = Some target
    /\ read_table sample_read_sheet (fun _ => None) target = Some raw
    /\ (In (CStr "PartNumber") (columns raw)
        \/ In (CStr "part_number") (columns raw)).
Proof.
  apply (reports_need_an_inventory "site/docs/stock.xlsx" sample_exists
           sample_read_sheet (fun _ => None) sample_read_excel
           sample_read_html sample_get_text sample_recipients sample_clock
           true (Some sample_inbox) ∅
           (Handled true (Some sample_ledger_mail)) sample_ledger_mail).
  - vm_compute. right. right. left. reflexivity.
  - reflexivity.
Defined.

(** [missing_iff_no_prefix]: no part number of the sample inventory
    begins with QQ-1. *)
Lemma missing_iff_no_prefix_witness :
  r_status (reconcile_item inv_ab12 (Item "QQ-1" 1)) = MISSING.
Proof.
  apply (proj2 (missing_iff_no_prefix inv_ab12 (Item "QQ-1" 1))).
  intros r [<-|[<-|[<-|[]]]]; reflexivity.
Defined.
